(** * CheckoutChamp auth server ([api_server.js]): model and properties

    A shallow embedding of [api_server.js]: the JSON body parser
    installed for every route, the token middleware [verifyApiToken], the
    browser-driven scraper [getCheckoutChampAuth] and the
    [POST /api/auth] route.

    - A JavaScript value that is a string, [undefined] or [null] is an
      [option string]; [!v] is [negb (truthy v)].
    - Strings are Rocq [string]s: one [ascii] per code unit, so the model
      covers texts whose code units are below 256.
    - [console.log] and [console.error] are left out.
    - Every call that leaves the process (Playwright, the clock) is an
      [Event]; the environment is a [World] that answers a call from the
      events issued before it.  An [async] function is a computation in
      the monad [M]: it threads the list of issued events and either
      returns a value or throws an [Error] (its message).
    - Every awaited call resolves or rejects; a promise that never
      settles, which would leave a request unanswered, is not
      modelled. *)

From Stdlib Require Import String Ascii List Bool ZArith Lia.
Import ListNotations.
Local Open Scope string_scope.

(* ===================================================================== *)
(** ** JavaScript values and strings *)
(* ===================================================================== *)

Module Js.

(** [undefined], [null] and the empty string are falsy; every other
    string is truthy, the string of the digit 0 included. *)
Definition truthy (v : option string) : bool :=
  match v with
  | None => false
  | Some s => negb (s =? "")
  end.

(** [a || b] on string-or-null operands. *)
Definition or_else (a b : option string) : option string :=
  if truthy a then a else b.

(** [a !== b] on string-or-undefined operands. *)
Definition strict_neq (a b : option string) : bool :=
  match a, b with
  | None, None => false
  | Some x, Some y => negb (x =? y)
  | _, _ => true
  end.

(** [s.includes(part)] *)
Fixpoint includes (s part : string) : bool :=
  if prefix part s then true
  else match s with
       | EmptyString => false
       | String _ s' => includes s' part
       end.

(** [arr.find(pred)]: the first element satisfying [pred], or
    [undefined]. *)
Definition find {A : Type} (pred : A -> bool) (arr : list A) : option A :=
  List.find pred arr.

End Js.

(* ===================================================================== *)
(** ** The three regular expressions of the page script *)
(* ===================================================================== *)

(** The patterns are values of [Pattern] and are run by a backtracking
    matcher in continuation style, [run_pattern]: a quantifier tries its
    longest repetition first and falls back to shorter ones when what
    follows fails.  [exec] tries the start positions from the left, as
    [String.prototype.match] does for a pattern without the [g] flag, and
    gives group 1 of the match, which is what the code reads.  None of the
    three patterns has a flag.

    In the comments below [Q] stands for the two-character class of the
    source patterns that holds the apostrophe and the double quote. *)

Module Regex.

Definition code (c : ascii) : N := N_of_ascii c.

(** [\s], restricted to code units below 256. *)
Definition is_space (c : ascii) : bool :=
  let n := code c in
  ((9 <=? n) && (n <=? 13) || (n =? 32) || (n =? 160))%N.

(** [\d] *)
Definition is_digit (c : ascii) : bool :=
  let n := code c in ((48 <=? n) && (n <=? 57))%N.

(** [Q]: the apostrophe (39) or the double quote (34) *)
Definition is_quote (c : ascii) : bool :=
  let n := code c in ((n =? 39) || (n =? 34))%N.

(** [[^Q]] *)
Definition not_quote (c : ascii) : bool := negb (is_quote c).

(** [[^}]] *)
Definition not_rbrace (c : ascii) : bool := negb (code c =? 125)%N.

(** The syntax the three patterns use: literal text, a character class,
    a class under [?], [*] or [+] (all greedy), a capturing group, and
    concatenation. *)
Inductive Pattern :=
| Lit (l : string)
| Class (cls : ascii -> bool)
| Opt (cls : ascii -> bool)
| Star (cls : ascii -> bool)
| Plus (cls : ascii -> bool)
| Group (p : Pattern)
| Cat (p1 p2 : Pattern).

(** The concatenation of a list of patterns. *)
Definition cat (ps : list Pattern) : Pattern :=
  fold_right Cat (Lit "") ps.

(** A literal at the head of [s]: what follows it. *)
Fixpoint lit (l : string) (s : string) : option string :=
  match l with
  | EmptyString => Some s
  | String a l' =>
      match s with
      | String b s' => if Ascii.eqb a b then lit l' s' else None
      | EmptyString => None
      end
  end.

(** The text matched between the input [s] and its suffix [s']. *)
Definition taken (s s' : string) : string :=
  substring 0 (String.length s - String.length s') s.

(** [[cls]*] followed by [k], greedy: the longest repetition is tried
    first, then the shorter ones. *)
Fixpoint repeat_class (cls : ascii -> bool) (s : string)
    (k : string -> option string) : option string :=
  match s with
  | String c s' =>
      if cls c then
        match repeat_class cls s' k with
        | Some r => Some r
        | None => k s
        end
      else k s
  | EmptyString => k s
  end.

(** The backtracking matcher: [p] at the head of [s], then the
    continuation [k] on the rest of the input and the text captured by
    group 1 so far; when [k] fails, the next way of matching [p] is
    tried. *)
Fixpoint run_pattern (p : Pattern) (s : string) (cap : option string)
    (k : string -> option string -> option string) : option string :=
  match p with
  | Lit l =>
      match lit l s with
      | Some s' => k s' cap
      | None => None
      end
  | Class cls =>
      match s with
      | String c s' => if cls c then k s' cap else None
      | EmptyString => None
      end
  | Opt cls =>
      match s with
      | String c s' =>
          if cls c then
            match k s' cap with
            | Some r => Some r
            | None => k s cap
            end
          else k s cap
      | EmptyString => k s cap
      end
  | Star cls => repeat_class cls s (fun s' => k s' cap)
  | Plus cls =>
      match s with
      | String c s' =>
          if cls c then repeat_class cls s' (fun s'' => k s'' cap) else None
      | EmptyString => None
      end
  | Group p' => run_pattern p' s cap (fun s' _ => k s' (Some (taken s s')))
  | Cat p1 p2 =>
      run_pattern p1 s cap (fun s' cap' => run_pattern p2 s' cap' k)
  end.

(** Group 1 of the match of [p] that starts at the head of [s]. *)
Definition match_at (p : Pattern) (s : string) : option string :=
  run_pattern p s None (fun _ cap => cap).

(** The leftmost start position at which [at_pos] matches. *)
Fixpoint search {A : Type} (at_pos : string -> option A) (s : string)
  : option A :=
  match at_pos s with
  | Some r => Some r
  | None =>
      match s with
      | EmptyString => None
      | String _ s' => search at_pos s'
      end
  end.

(** [text.match(p)]: [null], or the match, of which group 1 is kept. *)
Definition exec (p : Pattern) (text : string) : option string :=
  search (match_at p) text.

(** [/aDom\.construct\s*\(\s*\{([^}]+)\}\s*\)/] *)
Definition ADOM : Pattern :=
  cat [ Lit "aDom.construct"; Star is_space; Lit "("; Star is_space; Lit "{";
        Group (Plus not_rbrace); Lit "}"; Star is_space; Lit ")" ].

(** [/Q?KEY Q?\s*:\s*Q(VALUE+)Q/] *)
Definition KEY_VALUE (key : string) (value : ascii -> bool) : Pattern :=
  cat [ Opt is_quote; Lit key; Opt is_quote; Star is_space; Lit ":";
        Star is_space; Class is_quote; Group (Plus value); Class is_quote ].

(** [text.match(/aDom\.construct\s*\(\s*\{([^}]+)\}\s*\)/)] *)
Definition adomMatch (text : string) : option string :=
  exec ADOM text.

(** [configStr.match(/Q?csrfToken Q?\s*:\s*Q([^Q]+)Q/)] *)
Definition csrfMatch (configStr : string) : option string :=
  exec (KEY_VALUE "csrfToken" not_quote) configStr.

(** [configStr.match(/Q?currentCompanyId Q?\s*:\s*Q(\d+)Q/)] *)
Definition companyMatch (configStr : string) : option string :=
  exec (KEY_VALUE "currentCompanyId" is_digit) configStr.

(** *** The same patterns without backtracking

    In the three patterns every quantified class is followed by an atom
    that no character of the class matches, so only the longest repetition
    can succeed.  The functions below take the longest run at once; the
    section on pattern facts proves that they compute what [match_at]
    computes. *)

(** [[cls]*]: drop the longest run. *)
Fixpoint star (cls : ascii -> bool) (s : string) : string :=
  match s with
  | String c s' => if cls c then star cls s' else s
  | EmptyString => s
  end.

(** [[cls]?] *)
Definition opt (cls : ascii -> bool) (s : string) : string :=
  match s with
  | String c s' => if cls c then s' else s
  | EmptyString => s
  end.

(** [[cls]] *)
Definition one (cls : ascii -> bool) (s : string) : option string :=
  match s with
  | String c s' => if cls c then Some s' else None
  | EmptyString => None
  end.

(** The longest run of [cls] at the head of [s], and the rest. *)
Fixpoint span (cls : ascii -> bool) (s : string) : string * string :=
  match s with
  | String c s' =>
      if cls c then let (run, rest) := span cls s' in (String c run, rest)
      else (EmptyString, s)
  | EmptyString => (EmptyString, EmptyString)
  end.

(** [([cls]+)]: a capturing group around a non-empty run. *)
Definition group_plus (cls : ascii -> bool) (s : string)
  : option (string * string) :=
  match span cls s with
  | (EmptyString, _) => None
  | (run, rest) => Some (run, rest)
  end.

Definition bind {A B : Type} (o : option A) (k : A -> option B) : option B :=
  match o with
  | Some a => k a
  | None => None
  end.

Definition adom_at (s : string) : option string :=
  bind (lit "aDom.construct" s) (fun s =>
  bind (lit "(" (star is_space s)) (fun s =>
  bind (lit "{" (star is_space s)) (fun s =>
  bind (group_plus not_rbrace s) (fun '(g, s) =>
  bind (lit "}" s) (fun s =>
  bind (lit ")" (star is_space s)) (fun _ =>
  Some g)))))).

Definition key_value_at (key : string) (value : ascii -> bool) (s : string)
  : option string :=
  bind (lit key (opt is_quote s)) (fun s =>
  bind (lit ":" (star is_space (opt is_quote s))) (fun s =>
  bind (one is_quote (star is_space s)) (fun s =>
  bind (group_plus value s) (fun '(g, s) =>
  bind (one is_quote s) (fun _ =>
  Some g))))).

(** A continuation that fails on every input that starts in [cls]. *)
Definition rejects (cls : ascii -> bool) (k : string -> option string) : Prop :=
  forall c s, cls c = true -> k (String c s) = None.

End Regex.


(* ===================================================================== *)
(** ** The browser as an environment *)
(* ===================================================================== *)

(** A cookie as [context.cookies()] returns it. *)
Record Cookie := {
  name : string;
  value : string;
  domain : string;
  path : string;
  expires : Z;
  httpOnly : bool;
  secure : bool;
  sameSite : string
}.

(** The calls [getCheckoutChampAuth] makes outside the process, with the
    arguments the source passes. *)
Inductive Event :=
| chromium_launch (headless : bool) (args : list string)
| browser_newContext (userAgent : string)
| context_newPage
| page_goto (url waitUntil : string) (timeout : Z)
| page_fill (selector val : string) (timeout : Z)
| page_waitForNavigation (waitUntil : string) (timeout : Z)
| page_click (selector : string)
| page_waitForTimeout (ms : Z)
| page_url
| page_query (selector : string)            (* page.$(selector) *)
| context_cookies
| page_evaluate
| browser_close
| new_Date.

(** What an awaited call or a function gives back: a value, or a thrown
    [Error] with its message. *)
Inductive result (A : Type) :=
| Returned (a : A)
| Thrown (message : string).
Arguments Returned {A} a.
Arguments Thrown {A} message.

(** The environment of one run.  Each field answers one kind of call from
    the events issued so far (oldest first).
    - [settles]: a call awaited for its completion only; [None] when the
      promise resolves, [Some msg] when it rejects.
    - [current_url]: [page.url()], synchronous, never throws.
    - [query_found]: whether [page.$(selector)] resolves to an element
      (not [null]).
    - [cookie_jar]: [context.cookies()].
    - [script_texts]: the [textContent] of the document's [script]
      elements in document order, as the function given to
      [page.evaluate] sees them.
    - [clock]: [new Date().toISOString()]. *)
Record World := {
  settles : list Event -> Event -> option string;
  current_url : list Event -> string;
  query_found : list Event -> string -> result bool;
  cookie_jar : list Event -> result (list Cookie);
  script_texts : list Event -> result (list string);
  clock : list Event -> string
}.

(** An [async] computation: from the world and the events issued so far to
    the events issued at its end and its outcome. *)
Definition M (A : Type) : Type := World -> list Event -> list Event * result A.

Definition ret {A : Type} (a : A) : M A := fun _ h => (h, Returned a).

Definition throw {A : Type} (message : string) : M A :=
  fun _ h => (h, Thrown message).

Definition bind {A B : Type} (m : M A) (k : A -> M B) : M B := fun w h =>
  match m w h with
  | (h', Returned a) => k a w h'
  | (h', Thrown e) => (h', Thrown e)
  end.

Declare Scope async_scope.
Delimit Scope async_scope with async.
Notation "x <- m ;; k" := (bind m (fun x => k))
  (at level 100, m at next level, right associativity) : async_scope.
Notation "m ;; k" := (bind m (fun _ => k))
  (at level 100, right associativity) : async_scope.
Local Open Scope async_scope.

(** [try { body } catch (error) { handler(error) }] *)
Definition try_catch {A : Type} (body : M A) (handler : string -> M A) : M A :=
  fun w h =>
    match body w h with
    | (h', Returned a) => (h', Returned a)
    | (h', Thrown e) => handler e w h'
    end.

(** [promise.catch(() => null)] on a promise awaited for completion. *)
Definition catch_null (m : M unit) : M unit :=
  try_catch m (fun _ => ret tt).

(** [await Promise.all([a, b])]: both array elements are evaluated, so both
    calls are issued, [a] first; the result rejects when one of them
    rejects. *)
Definition promise_all2 (a b : M unit) : M unit := fun w h =>
  match a w h with
  | (h1, ra) =>
      match b w h1 with
      | (h2, rb) =>
          (h2, match ra with
               | Thrown e => Thrown e
               | Returned _ => rb
               end)
      end
  end.

(** An awaited call whose value is not used. *)
Definition call (e : Event) : M unit := fun w h =>
  ((h ++ [e])%list, match settles w h e with
             | None => Returned tt
             | Some message => Thrown message
             end).

Definition get_url : M string := fun w h =>
  ((h ++ [page_url])%list, Returned (current_url w h)).

Definition query (selector : string) : M bool := fun w h =>
  ((h ++ [page_query selector])%list, query_found w h selector).

Definition get_cookies : M (list Cookie) := fun w h =>
  ((h ++ [context_cookies])%list, cookie_jar w h).

Definition get_now : M string := fun w h =>
  ((h ++ [new_Date])%list, Returned (clock w h)).

(** [page.evaluate(fn)]: [fn] runs in the page over the document's script
    elements. *)
Definition evaluate {A : Type} (fn : list string -> A) : M A := fun w h =>
  ((h ++ [page_evaluate])%list,
   match script_texts w h with
   | Returned scripts => Returned (fn scripts)
   | Thrown e => Thrown e
   end).

(** One invocation starts with no event issued. *)
Definition run {A : Type} (m : M A) (w : World) : list Event * result A :=
  m w [].

(* ===================================================================== *)
(** ** Configuration and the auth bundle *)
(* ===================================================================== *)

(** [process.env]: a variable is a string or [undefined]. *)
Record Env := {
  PORT : option string;
  API_TOKEN : option string;
  CHECKOUTCHAMP_USER : option string;
  CHECKOUTCHAMP_PASS : option string
}.

(** The object the function given to [page.evaluate] returns. *)
Record AuthData := {
  csrf : option string;
  companyId : option string
}.

Record BundleCookies := {
  crmid : option string;
  k_region : option string;
  __cf_bm : option string;
  all_cookies : list Cookie
}.

(** Field names are the header names with [_] for [-]. *)
Record BundleHeaders := {
  Content_Type : string;
  X_COMPANY_ID : option string;
  X_CSRF_Token : option string;
  User_Agent : string;
  Referer : string;
  Origin : string
}.

Record BundleEndpoints := {
  base_url : string;
  login_url : string;
  data_endpoint : string;
  chart_endpoint : string
}.

Record SessionInfo := {
  timestamp : string;
  username : string;
  company_id : option string;
  session_timeout_minutes : Z
}.

(** [authVariables] *)
Record AuthBundle := {
  cookies : BundleCookies;
  headers : BundleHeaders;
  endpoints : BundleEndpoints;
  session_info : SessionInfo
}.

(* ===================================================================== *)
(** ** [getCheckoutChampAuth] *)
(* ===================================================================== *)

Module Scraper.

Definition BASE : string := "https://crm.checkoutchamp.com".
Definition LOGIN_URL : string := BASE ++ "/".
Definition DASHBOARD_URL_PART : string := "/dashboard".
Definition DATA_ENDPOINT : string :=
  BASE ++ "/reports/order-details/getTable.ajax.php".

Definition USER_AGENT : string :=
  "Mozilla/5.0 (Windows NT 10.0; Win64; x64) AppleWebKit/537.36 (KHTML, like Gecko) Chrome/115.0.0.0 Safari/537.36".

(** The double quote character, for the two attribute selectors. *)
Definition dquote : string := String (ascii_of_nat 34) EmptyString.

(** [input[name=QuserNameQ]] and [input[name=QpasswordQ]], [Q] the double
    quote. *)
Definition USER_FIELD : string :=
  "input[name=" ++ dquote ++ "userName" ++ dquote ++ "]".
Definition PASS_FIELD : string :=
  "input[name=" ++ dquote ++ "password" ++ dquote ++ "]".

Definition REPORTS_SELECTOR : string := "body >> text=reports".

Definition MISSING_CREDENTIALS : string :=
  "Missing CHECKOUTCHAMP_USER or CHECKOUTCHAMP_PASS environment variables".
Definition LOGIN_FAILED : string :=
  "Login failed - could not reach dashboard".

(** The string behind a variable the guard has found truthy. *)
Definition text (v : option string) : string :=
  match v with
  | Some s => s
  | None => "undefined"
  end.

(** Lines 54-63: the browser, its context and the page. *)
Definition acquire : M unit :=
  call (chromium_launch true ["--no-sandbox"; "--disable-setuid-sandbox"]) ;;
  call (browser_newContext USER_AGENT) ;;
  call context_newPage.

(** 1) Open login page *)
Definition openLoginPage : M unit :=
  call (page_goto LOGIN_URL "domcontentloaded" 30000).

(** 2) Fill credentials and submit *)
Definition fillAndSubmit (USER PASS : string) : M unit :=
  call (page_fill USER_FIELD USER 5000) ;;
  call (page_fill PASS_FIELD PASS 5000) ;;
  promise_all2
    (catch_null (call (page_waitForNavigation "networkidle" 20000)))
    (call (page_click "#loginBtn")) ;;
  call (page_waitForTimeout 2000).

(** [page.url().includes(DASHBOARD_URL_PART) ||
     (await page.$('body >> text=reports') !== null)]: the right operand
    is evaluated only when the left one is false. *)
Definition dashboardReached : M bool :=
  url <- get_url ;;
  if Js.includes url DASHBOARD_URL_PART then ret true
  else query REPORTS_SELECTOR.

(** 3) Verify login: the value of [loggedIn] at line 92. *)
Definition verifyLogin : M bool :=
  loggedIn <- dashboardReached ;;
  if negb loggedIn then
    catch_null (call (page_goto (BASE ++ "/dashboard/") "networkidle" 20000)) ;;
    dashboardReached
  else ret loggedIn.

(** [cookies.find(c => c.name === n)?.value || null] *)
Definition cookieValue (n : string) (cookies : list Cookie) : option string :=
  Js.or_else
    (option_map value (Js.find (fun c => name c =? n) cookies))
    None.

(** The body of the [for] loop of the function given to [page.evaluate],
    for one script. *)
Definition scanScript (acc : AuthData) (text : string) : AuthData :=
  match Regex.adomMatch text with
  | Some configStr =>
      let csrf1 :=
        match Regex.csrfMatch configStr with
        | Some v => if negb (Js.truthy (csrf acc)) then Some v else csrf acc
        | None => csrf acc
        end in
      let companyId1 :=
        match Regex.companyMatch configStr with
        | Some v =>
            if negb (Js.truthy (companyId acc)) then Some v
            else companyId acc
        | None => companyId acc
        end in
      {| csrf := csrf1; companyId := companyId1 |}
  | None => acc
  end.

(** 5) The function given to [page.evaluate]. *)
Definition extractAuthData (scripts : list string) : AuthData :=
  fold_left scanScript scripts {| csrf := None; companyId := None |}.

(** 6) Build response *)
Definition buildAuthVariables (cookies : list Cookie) (authData : AuthData)
    (USER now : string) : AuthBundle :=
  {| cookies :=
       {| crmid := cookieValue "crmid" cookies;
          k_region := cookieValue "k_region" cookies;
          __cf_bm := cookieValue "__cf_bm" cookies;
          all_cookies := cookies |};
     headers :=
       {| Content_Type := "application/x-www-form-urlencoded";
          X_COMPANY_ID := Js.or_else (companyId authData) (Some "4623");
          X_CSRF_Token := Js.or_else (csrf authData) None;
          User_Agent := USER_AGENT;
          Referer := "https://crm.checkoutchamp.com/reports/order-details/";
          Origin := "https://crm.checkoutchamp.com" |};
     endpoints :=
       {| base_url := BASE;
          login_url := LOGIN_URL;
          data_endpoint := DATA_ENDPOINT;
          chart_endpoint := BASE ++ "/reports/order-details/getChart.ajax.php" |};
     session_info :=
       {| timestamp := now;
          username := USER;
          company_id := Js.or_else (companyId authData) (Some "4623");
          session_timeout_minutes := 240 |} |}.

(** Lines 83-160: steps 3 to 6, from the verification to the bundle. *)
Definition verifyAndHarvest (USER : string) : M AuthBundle :=
  loggedIn <- verifyLogin ;;
  if negb loggedIn then throw LOGIN_FAILED
  else
    cookies <- get_cookies ;;
    authData <- evaluate extractAuthData ;;
    call browser_close ;;
    now <- get_now ;;
    ret (buildAuthVariables cookies authData USER now).

(** The [try] block, lines 66-160. *)
Definition tryBlock (USER PASS : string) : M AuthBundle :=
  openLoginPage ;;
  fillAndSubmit USER PASS ;;
  verifyAndHarvest USER.

(** The [catch] block, lines 162-165. *)
Definition catchBlock (error : string) : M AuthBundle :=
  call browser_close ;;
  throw error.

Definition getCheckoutChampAuth (env : Env) : M AuthBundle :=
  let USER := CHECKOUTCHAMP_USER env in
  let PASS := CHECKOUTCHAMP_PASS env in
  if negb (Js.truthy USER) || negb (Js.truthy PASS) then
    throw MISSING_CREDENTIALS
  else
    acquire ;;
    try_catch (tryBlock (text USER) (text PASS)) catchBlock.

End Scraper.

(* ===================================================================== *)
(** ** The Express application *)
(* ===================================================================== *)

Module Server.

(** What [express.json()], which [app.use(express.json())] (line 11)
    installs ahead of every route, makes of a request.  It calls [next()]
    for a request without a body, for one whose content type is not JSON
    and for one whose JSON body parses; otherwise it calls [next(err)]
    with an error that carries an HTTP status (400 for a body that does
    not parse, 413 for one over the size limit, 415 for an unsupported
    charset or encoding), and the route is not entered. *)
Inductive JsonBody :=
| Passed
| Rejected (status : Z).

(** [req.headers]: Node's object of the request headers, keyed by the
    lower-cased header name; a header that was not sent is [undefined].
    [req_json]: the outcome of the body parser on the request's content
    type and body. *)
Record Request := {
  req_headers : string -> option string;
  req_json : JsonBody
}.

(** The bodies the application sends: the two JSON bodies of the source,
    and the page of Express's default error handler. *)
Inductive Body :=
| ErrorBody (error message : string)      (* { error, message } *)
| BundleBody (authData : AuthBundle)
| ErrorPage.

(** [res.status(code).json(body)]; [res.json(body)] sends status 200. *)
Record Response := {
  status : Z;
  body : Body
}.

(** The middleware either sends a response or calls [next()]. *)
Inductive Middleware :=
| Responded (res : Response)
| Next.

Definition verifyApiToken (env : Env) (req : Request) : Middleware :=
  let token := req_headers req "x-api-token" in
  if negb (Js.truthy token) then
    Responded {| status := 401;
                 body := ErrorBody "Unauthorized" "Missing X-API-Token header" |}
  else if Js.strict_neq token (API_TOKEN env) then
    Responded {| status := 403;
                 body := ErrorBody "Forbidden" "Invalid API token" |}
  else Next.

(** The handler of [app.post('/api/auth', verifyApiToken, handler)]. *)
Definition authHandler (env : Env) : M Response :=
  try_catch
    (authData <- Scraper.getCheckoutChampAuth env ;;
     ret {| status := 200; body := BundleBody authData |})
    (fun message =>
       ret {| status := 500;
              body := ErrorBody "Internal Server Error" message |}).

(** The application installs no error handler of its own, so an error
    passed to [next] reaches Express's default one, which answers with the
    status of the error when that is an error status (400 to 599) and
    with 500 otherwise. *)
Definition errorStatus (s : Z) : Z :=
  if ((400 <=? s) && (s <? 600))%Z then s else 500%Z.

(** [POST /api/auth]: the body parser of line 11, then the middleware,
    then the handler of line 169. *)
Definition postApiAuth (env : Env) (req : Request) : M Response :=
  match req_json req with
  | Rejected s => ret {| status := errorStatus s; body := ErrorPage |}
  | Passed =>
      match verifyApiToken env req with
      | Responded res => ret res
      | Next => authHandler env
      end
  end.

(** The response to one request, and the browser calls made for it.  The
    handler's [catch] returns a response on every path, so the [Thrown]
    case, an error that escapes the route, does not arise (lemma
    [postApiAuth_returns]). *)
Definition serve (env : Env) (req : Request) (w : World)
  : list Event * option Response :=
  match run (postApiAuth env req) w with
  | (trace, Returned res) => (trace, Some res)
  | (trace, Thrown _) => (trace, None)
  end.

End Server.

(* ===================================================================== *)
(** ** Observations on a run *)
(* ===================================================================== *)

Definition is_close (e : Event) : bool :=
  match e with
  | browser_close => true
  | _ => false
  end.

Definition is_launch (e : Event) : bool :=
  match e with
  | chromium_launch _ _ => true
  | _ => false
  end.

Definition is_dashboard_goto (e : Event) : bool :=
  match e with
  | page_goto url _ _ => url =? (Scraper.BASE ++ "/dashboard/")
  | _ => false
  end.

(** The events of a run up to the page, up to the loaded login page and
    up to the end of the settle delay. *)
Definition acquiredTrace : list Event :=
  [ chromium_launch true ["--no-sandbox"; "--disable-setuid-sandbox"];
    browser_newContext Scraper.USER_AGENT;
    context_newPage ].

Definition loginGoto : Event :=
  page_goto Scraper.LOGIN_URL "domcontentloaded" 30000.

Definition navigationWait : Event :=
  page_waitForNavigation "networkidle" 20000.

Definition filledTrace (USER PASS : string) : list Event :=
  (acquiredTrace
   ++ [ loginGoto;
        page_fill Scraper.USER_FIELD USER 5000;
        page_fill Scraper.PASS_FIELD PASS 5000 ])%list.

Definition submittedTrace (USER PASS : string) : list Event :=
  (filledTrace USER PASS
   ++ [ navigationWait;
        page_click "#loginBtn";
        page_waitForTimeout 2000 ])%list.

(** The fallback navigation of the verification. *)
Definition fallbackGoto : Event :=
  page_goto (Scraper.BASE ++ "/dashboard/") "networkidle" 20000.

Definition reportsQuery : Event := page_query Scraper.REPORTS_SELECTOR.

(** The two login signals as the world shows them after the events [h]:
    the current URL contains [/dashboard], or else the page has an element
    with the text [reports]. *)
Definition dashboardSignals (w : World) (h : list Event) : result bool :=
  if Js.includes (current_url w h) Scraper.DASHBOARD_URL_PART
  then Returned true
  else query_found w (h ++ [page_url])%list Scraper.REPORTS_SELECTOR.

(** The calls reading the two signals takes. *)
Definition signalEvents (w : World) (h : list Event) : list Event :=
  if Js.includes (current_url w h) Scraper.DASHBOARD_URL_PART
  then [page_url]
  else [page_url; reportsQuery].

(** Both credentials are configured. *)
Definition configured (env : Env) : Prop :=
  Js.truthy (CHECKOUTCHAMP_USER env) = true
  /\ Js.truthy (CHECKOUTCHAMP_PASS env) = true.

(** The run on [w] acquires the page: events [h]. *)
Definition acquired (w : World) (h : list Event) : Prop :=
  Scraper.acquire w [] = (h, Returned tt).

(** The run on [w] gets through the login form and the settle delay:
    events [h], after which the verification starts. *)
Definition submitted (env : Env) (w : World) (h : list Event) : Prop :=
  configured env
  /\ exists h0 h1,
      acquired w h0
      /\ Scraper.openLoginPage w h0 = (h1, Returned tt)
      /\ Scraper.fillAndSubmit
           (Scraper.text (CHECKOUTCHAMP_USER env))
           (Scraper.text (CHECKOUTCHAMP_PASS env)) w h1
         = (h, Returned tt).

(** The login page loads, both fields are filled, the click and the
    settle delay complete.  Nothing is asked of [navigationWait]. *)
Definition formAccepted (w : World) (USER PASS : string) : Prop :=
  settles w acquiredTrace loginGoto = None
  /\ settles w (acquiredTrace ++ [loginGoto])
       (page_fill Scraper.USER_FIELD USER 5000) = None
  /\ settles w (acquiredTrace
                ++ [loginGoto; page_fill Scraper.USER_FIELD USER 5000])
       (page_fill Scraper.PASS_FIELD PASS 5000) = None
  /\ settles w (filledTrace USER PASS ++ [navigationWait])
       (page_click "#loginBtn") = None
  /\ settles w (filledTrace USER PASS
                ++ [navigationWait; page_click "#loginBtn"])
       (page_waitForTimeout 2000) = None.

(** Two worlds that answer every call alike, except possibly the calls
    satisfying [p]. *)
Definition sameExcept (p : Event -> bool) (w w' : World) : Prop :=
  (forall h e, p e = false -> settles w h e = settles w' h e)
  /\ (forall h, current_url w h = current_url w' h)
  /\ (forall h sel, query_found w h sel = query_found w' h sel)
  /\ (forall h, cookie_jar w h = cookie_jar w' h)
  /\ (forall h, script_texts w h = script_texts w' h)
  /\ (forall h, clock w h = clock w' h).

(** [m] runs alike in the two worlds, whatever was issued before. *)
Definition alike (w w' : World) {A : Type} (m : M A) : Prop :=
  forall h, m w h = m w' h.

Definition is_navigationWait (e : Event) : bool :=
  match e with
  | page_waitForNavigation _ _ => true
  | _ => false
  end.

(** How many events of a trace satisfy [p]. *)
Definition count (p : Event -> bool) (trace : list Event) : nat :=
  length (filter p trace).

(** The first value found in a list of optional values. *)
Fixpoint first_some {A : Type} (l : list (option A)) : option A :=
  match l with
  | [] => None
  | Some a :: _ => Some a
  | None :: l' => first_some l'
  end.

(** What one script contributes for each key: the [csrfToken] and the
    [currentCompanyId] of the argument of its first [aDom.construct]
    call. *)
Definition csrfOf (text : string) : option string :=
  Regex.bind (Regex.adomMatch text) Regex.csrfMatch.

Definition companyOf (text : string) : option string :=
  Regex.bind (Regex.adomMatch text) Regex.companyMatch.

(** A value that is [undefined], [null] or the empty string. *)
Definition absent (v : option string) : Prop :=
  v = None \/ v = Some "".

(** A value the loop can hold in [csrf] or [companyId]: [null], or a
    truthy string. *)
Definition settled (v : option string) : Prop :=
  v = None \/ Js.truthy v = true.

(** A script that matches the [aDom.construct] signature. *)
Definition matchesSignature (text : string) : bool :=
  match Regex.adomMatch text with
  | Some _ => true
  | None => false
  end.

(* ===================================================================== *)
(** ** Concrete environments and requests *)
(* ===================================================================== *)

Module Sample.

Definition env : Env :=
  {| PORT := Some "3000";
     API_TOKEN := Some "secret";
     CHECKOUTCHAMP_USER := Some "alice";
     CHECKOUTCHAMP_PASS := Some "hunter2" |}.

(** No [API_TOKEN] in the environment. *)
Definition env_no_token : Env :=
  {| PORT := Some "3000";
     API_TOKEN := None;
     CHECKOUTCHAMP_USER := Some "alice";
     CHECKOUTCHAMP_PASS := Some "hunter2" |}.

(** No [CHECKOUTCHAMP_PASS] in the environment. *)
Definition env_no_pass : Env :=
  {| PORT := Some "3000";
     API_TOKEN := Some "secret";
     CHECKOUTCHAMP_USER := Some "alice";
     CHECKOUTCHAMP_PASS := None |}.

(** A request that carries [X-API-Token: v], or no such header, and no
    body. *)
Definition request (token : option string) : Server.Request :=
  {| Server.req_headers := fun h => if h =? "x-api-token" then token else None;
     Server.req_json := Server.Passed |}.

(** The same with a JSON body that does not parse. *)
Definition malformed_request (token : option string) : Server.Request :=
  {| Server.req_headers := fun h => if h =? "x-api-token" then token else None;
     Server.req_json := Server.Rejected 400 |}.

Definition session_cookie : Cookie :=
  {| name := "crmid"; value := "abc123"; domain := "crm.checkoutchamp.com";
     path := "/"; expires := -1; httpOnly := true; secure := true;
     sameSite := "Lax" |}.

Definition page_scripts : list string :=
  [ "window.dataLayer = [];";
    "aDom.construct({ csrfToken: 'tok-1', other: 1 });";
    "aDom.construct({ csrfToken: 'tok-2', currentCompanyId: '77' });" ].

(** Every call resolves; the browser sits at [url] and the page shows
    the text iff [reports]. *)
Definition steady (url : string) (reports : bool) : World :=
  {| settles := fun _ _ => None;
     current_url := fun _ => url;
     query_found := fun _ _ => Returned reports;
     cookie_jar := fun _ => Returned [session_cookie];
     script_texts := fun _ => Returned page_scripts;
     clock := fun _ => "2024-05-01T10:00:00.000Z" |}.

(** The login redirect works. *)
Definition logged_in : World :=
  steady "https://crm.checkoutchamp.com/dashboard/" false.

(** The login is refused: the browser stays on the login page. *)
Definition refused : World :=
  steady "https://crm.checkoutchamp.com/" false.

(** As [w], but the calls satisfying [p] reject with [message]. *)
Definition failing (p : Event -> bool) (message : string) (w : World) : World :=
  {| settles := fun h e => if p e then Some message else settles w h e;
     current_url := current_url w;
     query_found := query_found w;
     cookie_jar := cookie_jar w;
     script_texts := script_texts w;
     clock := clock w |}.

Definition is_newContext (e : Event) : bool :=
  match e with browser_newContext _ => true | _ => false end.

Definition is_login_goto (e : Event) : bool :=
  match e with
  | page_goto url _ _ => url =? Scraper.LOGIN_URL
  | _ => false
  end.

(** The post-login redirect does not happen, and only the direct visit
    to the dashboard shows the logged-in page. *)
Definition slow_redirect : World :=
  {| settles := fun _ _ => None;
     current_url := fun h =>
       if existsb is_dashboard_goto h
       then "https://crm.checkoutchamp.com/dashboard/"
       else "https://crm.checkoutchamp.com/";
     query_found := fun _ _ => Returned false;
     cookie_jar := fun _ => Returned [session_cookie];
     script_texts := fun _ => Returned page_scripts;
     clock := fun _ => "2024-05-01T10:00:00.000Z" |}.

End Sample.

(* ===================================================================== *)
(** ** Further observations *)
(* ===================================================================== *)

(** Every character of [s] is in [cls]. *)
Fixpoint all_chars (cls : ascii -> bool) (s : string) : bool :=
  match s with
  | EmptyString => true
  | String c s' => cls c && all_chars cls s'
  end.

(** [s] is empty or starts outside [cls]. *)
Definition stops (cls : ascii -> bool) (s : string) : Prop :=
  match s with
  | EmptyString => True
  | String c _ => cls c = false
  end.

(** No quote, or one quote character. *)
Definition optional_quote (oq : string) : Prop :=
  oq = "" \/ exists q, Regex.is_quote q = true /\ oq = String q "".

(** The values of [a], and those of [b] where [a] has none. *)
Definition merge (a b : AuthData) : AuthData :=
  {| csrf := match csrf a with
             | Some v => Some v
             | None => csrf b
             end;
     companyId := match companyId a with
                  | Some v => Some v
                  | None => companyId b
                  end |}.

(** A page script with one [aDom.construct] call whose argument defines
    both keys, and the text of that argument. *)
Definition pageConfig (id t : string) : string :=
  " currentCompanyId: '" ++ id ++ "', csrfToken: '" ++ t ++ "' ".

Definition pageScript (id t : string) : string :=
  "aDom.construct({ currentCompanyId: '" ++ id ++ "', csrfToken: '" ++ t ++ "' });".

(** The calls after a confirmed login, on the way to the bundle. *)
Definition harvestCalls : list Event :=
  [context_cookies; page_evaluate; browser_close; new_Date].

(** The login is confirmed with events [h'], then the cookie jar is read
    ([jar]), the scripts are read ([scripts]) and the browser closes. *)
Definition harvested (env : Env) (w : World) (h' : list Event)
    (jar : list Cookie) (scripts : list string) : Prop :=
  (exists h, submitted env w h
             /\ Scraper.verifyLogin w h = (h', Returned true))
  /\ cookie_jar w h' = Returned jar
  /\ script_texts w (h' ++ [context_cookies]) = Returned scripts
  /\ settles w (h' ++ [context_cookies; page_evaluate]) browser_close = None.

Definition is_now (e : Event) : bool :=
  match e with
  | new_Date => true
  | _ => false
  end.

Definition is_fill (e : Event) : bool :=
  match e with
  | page_fill _ _ _ => true
  | _ => false
  end.

(** After the first [browser.close()] nothing is asked of the browser but
    a further [browser.close()]; the clock may still be read. *)
Fixpoint quiet_after_close (trace : list Event) : bool :=
  match trace with
  | [] => true
  | browser_close :: rest => forallb (fun e => is_close e || is_now e) rest
  | _ :: rest => quiet_after_close rest
  end.

(** The two [page.fill] calls of the login form (lines 72-73). *)
Definition credentialFills (USER PASS : string) : list Event :=
  [ page_fill Scraper.USER_FIELD USER 5000;
    page_fill Scraper.PASS_FIELD PASS 5000 ].

(** The calls of the scraper whose arguments are constants of the
    program: all its calls but the two [page.fill]. *)
Definition fixedCalls : list Event :=
  (acquiredTrace
   ++ [ loginGoto; navigationWait; page_click "#loginBtn";
        page_waitForTimeout 2000; page_url; reportsQuery; fallbackGoto ]
   ++ harvestCalls)%list.

(** The rejection of these two navigations is caught by the code. *)
Definition tolerated (e : Event) : bool :=
  is_navigationWait e || is_dashboard_goto e.

(** The world lets the call [e], issued after [h], succeed. *)
Definition resolved (w : World) (h : list Event) (e : Event) : Prop :=
  match e with
  | page_url | new_Date => True
  | page_query selector => exists found, query_found w h selector = Returned found
  | context_cookies => exists jar, cookie_jar w h = Returned jar
  | page_evaluate => exists scripts, script_texts w h = Returned scripts
  | _ => settles w h e = None
  end.

(** Every call of [rest], issued after [h], succeeds, except possibly the
    tolerated ones. *)
Fixpoint resolvedFrom (w : World) (h rest : list Event) : Prop :=
  match rest with
  | [] => True
  | e :: rest' =>
      (tolerated e = true \/ resolved w h e)
      /\ resolvedFrom w (h ++ [e]) rest'
  end.

(** The request carries the configured token, which is not empty. *)
Definition authorized (env : Env) (req : Server.Request) : Prop :=
  exists t, Server.req_headers req "x-api-token" = Some t
            /\ t <> "" /\ API_TOKEN env = Some t.

(** The request reaches the handler: the body parser lets it through and
    it is authorized. *)
Definition admitted (env : Env) (req : Server.Request) : Prop :=
  Server.req_json req = Server.Passed /\ authorized env req.

(** The cookies named [n], in jar order. *)
Definition named (n : string) (jar : list Cookie) : list Cookie :=
  filter (fun c => name c =? n) jar.

(** Sample data for the properties below: a login page whose URL carries
    the dashboard path in its query string, and a jar with two cookies of
    the same name. *)
Definition sample_login_url_with_next : string :=
  "https://crm.checkoutchamp.com/?next=/dashboard".

Definition sample_stale_cookie : Cookie :=
  {| name := "crmid"; value := ""; domain := "checkoutchamp.com";
     path := "/"; expires := -1; httpOnly := true; secure := true;
     sameSite := "Lax" |}.

(* ===================================================================== *)
(** ** Facts about the patterns *)
(* ===================================================================== *)

Section PatternFacts.

Import Regex.

Example adomMatch_sample :
  adomMatch "var a = 1; aDom.construct ( { csrfToken: 'abc', currentCompanyId : '77' } );"
  = Some " csrfToken: 'abc', currentCompanyId : '77' ".
Proof. reflexivity. Qed.

Example csrfMatch_sample :
  csrfMatch " csrfToken: 'abc', currentCompanyId : '77' " = Some "abc".
Proof. reflexivity. Qed.

Example companyMatch_sample :
  companyMatch " csrfToken: 'abc', currentCompanyId : '77' " = Some "77".
Proof. reflexivity. Qed.

(** [(\d+)] then a quote: a company id that is not all digits does not
    match. *)
Example companyMatch_not_digits :
  companyMatch " currentCompanyId: '7a' " = None.
Proof. reflexivity. Qed.

(** The argument of the first [aDom.construct] call of a script is the one
    that is read. *)
Example adomMatch_first_call :
  adomMatch "aDom.construct({a: '1'}); aDom.construct({csrfToken: 'x'});"
  = Some "a: '1'".
Proof. reflexivity. Qed.

(** *** Runs of a class *)

Lemma span_star (cls : ascii -> bool) (s : string) :
  snd (span cls s) = star cls s.
Proof.
  induction s as [|c s IH]; simpl; [reflexivity|].
  destruct (cls c); [|reflexivity].
  destruct (span cls s); simpl in *; assumption.
Qed.

Lemma length_span (cls : ascii -> bool) (s : string) :
  String.length s
  = String.length (fst (span cls s)) + String.length (snd (span cls s)).
Proof.
  induction s as [|c s IH]; simpl; [reflexivity|].
  destruct (cls c); [|reflexivity].
  destruct (span cls s); simpl in *. lia.
Qed.

Lemma span_app (cls : ascii -> bool) (s : string) :
  s = fst (span cls s) ++ snd (span cls s).
Proof.
  induction s as [|c s IH]; simpl; [reflexivity|].
  destruct (cls c); [|reflexivity].
  destruct (span cls s); simpl in *. congruence.
Qed.

Lemma substring_app (a b : string) :
  substring 0 (String.length a) (a ++ b) = a.
Proof.
  induction a as [|c a IH]; simpl.
  - destruct b; reflexivity.
  - rewrite IH. reflexivity.
Qed.

(** What is taken up to the end of the longest run is that run. *)
Lemma taken_span (cls : ascii -> bool) (s : string) :
  taken s (star cls s) = fst (span cls s).
Proof.
  unfold taken. rewrite <- span_star.
  rewrite (length_span cls s) at 1.
  replace (String.length (fst (span cls s)) + String.length (snd (span cls s))
           - String.length (snd (span cls s)))
    with (String.length (fst (span cls s))) by lia.
  rewrite (span_app cls s) at 2. apply substring_app.
Qed.

Lemma group_plus_nonempty (cls : ascii -> bool) (s g rest : string) :
  group_plus cls s = Some (g, rest) -> g <> "".
Proof.
  unfold group_plus.
  destruct (span cls s) as [run rest'].
  destruct run; intros H; inversion H; subst; discriminate.
Qed.

(** *** The character classes *)

Lemma space_not_quote (c : ascii) : is_space c = true -> is_quote c = false.
Proof.
  unfold is_space, is_quote. cbv zeta.
  destruct (code c =? 39)%N eqn:E1.
  - apply N.eqb_eq in E1. rewrite E1. discriminate.
  - destruct (code c =? 34)%N eqn:E2; [|reflexivity].
    apply N.eqb_eq in E2. rewrite E2. discriminate.
Qed.

Lemma quote_not_space (c : ascii) : is_quote c = true -> is_space c = false.
Proof.
  intros H. destruct (is_space c) eqn:E; [|reflexivity].
  apply space_not_quote in E. congruence.
Qed.

Lemma digit_not_quote (c : ascii) : is_digit c = true -> is_quote c = false.
Proof.
  unfold is_digit, is_quote. cbv zeta. intros H.
  apply andb_prop in H as [H1 H2]. apply N.leb_le in H1.
  destruct (code c =? 39)%N eqn:E1; [apply N.eqb_eq in E1; lia|].
  destruct (code c =? 34)%N eqn:E2; [apply N.eqb_eq in E2; lia|].
  reflexivity.
Qed.

(** *** Backtracking never leaves the longest repetition

    When the continuation fails on every input that starts in the class,
    a repetition shorter than the longest cannot succeed. *)

Lemma repeat_class_greedy
    (cls : ascii -> bool) (k : string -> option string) (s : string) :
  rejects cls k -> repeat_class cls s k = k (star cls s).
Proof.
  intros Hk. induction s as [|c s IH]; simpl; [reflexivity|].
  destruct (cls c) eqn:E; [|reflexivity].
  rewrite IH. destruct (k (star cls s)) eqn:K; [reflexivity|].
  apply Hk; assumption.
Qed.

Section Steps.

Variables (s : string) (cap : option string).
Variable k : string -> option string -> option string.

Lemma run_cat (p1 p2 : Pattern) :
  run_pattern (Cat p1 p2) s cap k
  = run_pattern p1 s cap (fun s' cap' => run_pattern p2 s' cap' k).
Proof. reflexivity. Qed.

Lemma run_lit (l : string) :
  run_pattern (Lit l) s cap k
  = match lit l s with
    | Some s' => k s' cap
    | None => None
    end.
Proof. reflexivity. Qed.

Lemma run_class (cls : ascii -> bool) :
  run_pattern (Class cls) s cap k
  = match s with
    | String c s' => if cls c then k s' cap else None
    | EmptyString => None
    end.
Proof. reflexivity. Qed.

Lemma run_star (cls : ascii -> bool) :
  rejects cls (fun s' => k s' cap) ->
  run_pattern (Star cls) s cap k = k (star cls s) cap.
Proof.
  intros Hk. simpl. rewrite repeat_class_greedy by exact Hk. reflexivity.
Qed.

Lemma run_opt (cls : ascii -> bool) :
  rejects cls (fun s' => k s' cap) ->
  run_pattern (Opt cls) s cap k = k (opt cls s) cap.
Proof.
  intros Hk. destruct s as [|c t]; simpl; [reflexivity|].
  destruct (cls c) eqn:E; [|reflexivity].
  destruct (k t cap); [reflexivity|]. apply (Hk c t E).
Qed.

Lemma run_group_plus (cls : ascii -> bool) :
  (forall g, rejects cls (fun s' => k s' g)) ->
  run_pattern (Group (Plus cls)) s cap k
  = match group_plus cls s with
    | Some (g, rest) => k rest (Some g)
    | None => None
    end.
Proof.
  intros Hk. unfold group_plus. destruct s as [|c t]; simpl; [reflexivity|].
  destruct (cls c) eqn:E; [|reflexivity].
  rewrite repeat_class_greedy
    by (intros c' t' Hc';
        apply (Hk (Some (taken (String c t) (String c' t')))); exact Hc').
  pose proof (taken_span cls (String c t)) as T. simpl in T. rewrite E in T.
  rewrite T. pose proof (span_star cls t) as S.
  destruct (span cls t) as [run rest]; simpl in *. rewrite S. reflexivity.
Qed.

End Steps.

(** What follows starts with a literal character outside [cls]. *)
Lemma rejects_cat_lit (cls : ascii -> bool) (a : ascii) (l : string)
    (p : Pattern) (cap : option string)
    (k : string -> option string -> option string) :
  cls a = false ->
  rejects cls (fun s => run_pattern (Cat (Lit (String a l)) p) s cap k).
Proof.
  intros Ha c s Hc. rewrite run_cat, run_lit. cbn [lit].
  destruct (Ascii.eqb_spec a c) as [->|]; [congruence | reflexivity].
Qed.

(** What follows starts with a class disjoint from [cls]. *)
Lemma rejects_cat_class (cls cls' : ascii -> bool)
    (p : Pattern) (cap : option string)
    (k : string -> option string -> option string) :
  (forall c, cls c = true -> cls' c = false) ->
  rejects cls (fun s => run_pattern (Cat (Class cls') p) s cap k).
Proof.
  intros H c s Hc. simpl. rewrite (H c Hc). reflexivity.
Qed.

(** The [aDom.construct] pattern at one position: the backtracking matcher
    computes what the greedy reading computes. *)
Lemma adom_at_backtracking (s : string) : match_at ADOM s = adom_at s.
Proof.
  unfold match_at, adom_at, ADOM, cat, bind. simpl fold_right.
  rewrite run_cat, run_lit.
  destruct (lit "aDom.construct" s) as [s1|]; [|reflexivity].
  rewrite run_cat, run_star by (apply rejects_cat_lit; reflexivity).
  rewrite run_cat, run_lit.
  destruct (lit "(" (star is_space s1)) as [s2|]; [|reflexivity].
  rewrite run_cat, run_star by (apply rejects_cat_lit; reflexivity).
  rewrite run_cat, run_lit.
  destruct (lit "{" (star is_space s2)) as [s3|]; [|reflexivity].
  rewrite run_cat, run_group_plus
    by (intros g; apply rejects_cat_lit; reflexivity).
  destruct (group_plus not_rbrace s3) as [[g s4]|]; [|reflexivity].
  rewrite run_cat, run_lit.
  destruct (lit "}" s4) as [s5|]; [|reflexivity].
  rewrite run_cat, run_star by (apply rejects_cat_lit; reflexivity).
  rewrite run_cat, run_lit.
  destruct (lit ")" (star is_space s5)); reflexivity.
Qed.

(** The same for a key/value pattern whose key does not start with a quote
    and whose value class has no quote. *)
Lemma key_value_at_backtracking
    (a : ascii) (l : string) (value : ascii -> bool) (s : string) :
  is_quote a = false ->
  (forall c, value c = true -> is_quote c = false) ->
  match_at (KEY_VALUE (String a l) value) s = key_value_at (String a l) value s.
Proof.
  intros Ha Hv.
  unfold match_at, key_value_at, KEY_VALUE, cat, bind. simpl fold_right.
  rewrite run_cat, run_opt by (apply rejects_cat_lit; exact Ha).
  rewrite run_cat, run_lit.
  destruct (lit (String a l) (opt is_quote s)) as [s1|]; [|reflexivity].
  rewrite run_cat, run_opt.
  2:{ intros c t Hc.
      rewrite run_cat, run_star by (apply rejects_cat_lit; reflexivity).
      cbn [star]. rewrite (quote_not_space c Hc), run_cat, run_lit. cbn [lit].
      destruct (Ascii.eqb_spec ":"%char c) as [<-|];
        [discriminate Hc | reflexivity]. }
  rewrite run_cat, run_star by (apply rejects_cat_lit; reflexivity).
  rewrite run_cat, run_lit.
  destruct (lit ":" (star is_space (opt is_quote s1))) as [s2|]; [|reflexivity].
  rewrite run_cat, run_star by (apply rejects_cat_class; exact space_not_quote).
  rewrite run_cat, run_class. unfold one.
  destruct (star is_space s2) as [|c s3]; [reflexivity|].
  destruct (is_quote c); [|reflexivity].
  rewrite run_cat, run_group_plus
    by (intros g; apply rejects_cat_class; exact Hv).
  destruct (group_plus value s3) as [[g s4]|]; [|reflexivity].
  rewrite run_cat, run_class.
  destruct s4 as [|c' s5]; [reflexivity|].
  destruct (is_quote c'); reflexivity.
Qed.

Lemma search_ext {A : Type} (f g : string -> option A) (s : string) :
  (forall t, f t = g t) -> search f s = search g s.
Proof.
  intros H. induction s as [|c s IH]; simpl; rewrite H; [reflexivity|].
  rewrite IH. reflexivity.
Qed.

Lemma search_found {A : Type} (at_pos : string -> option A) (s : string) (v : A) :
  search at_pos s = Some v -> exists s', at_pos s' = Some v.
Proof.
  induction s as [|c s IH]; simpl.
  - destruct (at_pos "") eqn:E; intros H; inversion H; subst.
    exists ""; assumption.
  - destruct (at_pos (String c s)) eqn:E; intros H.
    + inversion H; subst. exists (String c s); assumption.
    + apply IH; assumption.
Qed.

Lemma adomMatch_greedy (text : string) : adomMatch text = search adom_at text.
Proof. apply search_ext, adom_at_backtracking. Qed.

Lemma csrfMatch_greedy (configStr : string) :
  csrfMatch configStr = search (key_value_at "csrfToken" not_quote) configStr.
Proof.
  apply search_ext. intros t. apply key_value_at_backtracking; [reflexivity|].
  intros c Hc. unfold not_quote in Hc.
  destruct (is_quote c); [discriminate | reflexivity].
Qed.

Lemma companyMatch_greedy (configStr : string) :
  companyMatch configStr
  = search (key_value_at "currentCompanyId" is_digit) configStr.
Proof.
  apply search_ext. intros t. apply key_value_at_backtracking; [reflexivity|].
  exact digit_not_quote.
Qed.

(** *** The captured values are not empty *)

Lemma key_value_at_nonempty (key : string) (cls : ascii -> bool) (s v : string) :
  key_value_at key cls s = Some v -> v <> "".
Proof.
  unfold key_value_at, bind.
  destruct (lit key _) as [s1|]; [|discriminate].
  destruct (lit ":" _) as [s2|]; [|discriminate].
  destruct (one is_quote _) as [s3|]; [|discriminate].
  destruct (group_plus cls s3) as [[g s4]|] eqn:G; [|discriminate].
  destruct (one is_quote s4); [|discriminate].
  intros H; inversion H; subst.
  eapply group_plus_nonempty; eassumption.
Qed.

Lemma truthy_nonempty (v : string) : v <> "" -> Js.truthy (Some v) = true.
Proof.
  intros H; simpl. destruct (String.eqb_spec v ""); [contradiction|reflexivity].
Qed.

(** A captured [csrfToken] is a non-empty string, hence truthy. *)
Lemma csrfMatch_truthy (configStr v : string) :
  csrfMatch configStr = Some v -> Js.truthy (Some v) = true.
Proof.
  intros H. rewrite csrfMatch_greedy in H. apply search_found in H as [s' H].
  apply truthy_nonempty. eapply key_value_at_nonempty; eassumption.
Qed.

(** And so is a captured [currentCompanyId]. *)
Lemma companyMatch_truthy (configStr v : string) :
  companyMatch configStr = Some v -> Js.truthy (Some v) = true.
Proof.
  intros H. rewrite companyMatch_greedy in H. apply search_found in H as [s' H].
  apply truthy_nonempty. eapply key_value_at_nonempty; eassumption.
Qed.

End PatternFacts.

(* ===================================================================== *)
(** ** The scan over the scripts *)
(* ===================================================================== *)

Section Scan.

Lemma scanScript_csrf (acc : AuthData) (text : string) :
  settled (csrf acc) ->
  csrf (Scraper.scanScript acc text)
  = match csrf acc with
    | Some v => Some v
    | None => csrfOf text
    end.
Proof.
  intros Hs. unfold Scraper.scanScript, csrfOf, Regex.bind.
  destruct (Regex.adomMatch text) as [configStr|]; simpl.
  - destruct (Regex.csrfMatch configStr) as [v|].
    + destruct Hs as [Hn | Ht]; rewrite ?Hn, ?Ht; simpl; try reflexivity.
      destruct (csrf acc); [reflexivity | discriminate].
    + destruct (csrf acc); reflexivity.
  - destruct (csrf acc); reflexivity.
Qed.

Lemma scanScript_companyId (acc : AuthData) (text : string) :
  settled (companyId acc) ->
  companyId (Scraper.scanScript acc text)
  = match companyId acc with
    | Some v => Some v
    | None => companyOf text
    end.
Proof.
  intros Hs. unfold Scraper.scanScript, companyOf, Regex.bind.
  destruct (Regex.adomMatch text) as [configStr|]; simpl.
  - destruct (Regex.companyMatch configStr) as [v|].
    + destruct Hs as [Hn | Ht]; rewrite ?Hn, ?Ht; simpl; try reflexivity.
      destruct (companyId acc); [reflexivity | discriminate].
    + destruct (companyId acc); reflexivity.
  - destruct (companyId acc); reflexivity.
Qed.

Lemma csrfOf_settled (text : string) : settled (csrfOf text).
Proof.
  unfold csrfOf, Regex.bind.
  destruct (Regex.adomMatch text) as [c|]; [|left; reflexivity].
  destruct (Regex.csrfMatch c) as [v|] eqn:E; [|left; reflexivity].
  right. eapply csrfMatch_truthy; eassumption.
Qed.

Lemma companyOf_settled (text : string) : settled (companyOf text).
Proof.
  unfold companyOf, Regex.bind.
  destruct (Regex.adomMatch text) as [c|]; [|left; reflexivity].
  destruct (Regex.companyMatch c) as [v|] eqn:E; [|left; reflexivity].
  right. eapply companyMatch_truthy; eassumption.
Qed.

Lemma scanScript_settled (acc : AuthData) (text : string) :
  settled (csrf acc) -> settled (companyId acc) ->
  settled (csrf (Scraper.scanScript acc text))
  /\ settled (companyId (Scraper.scanScript acc text)).
Proof.
  intros H1 H2. rewrite scanScript_csrf, scanScript_companyId by assumption.
  split.
  - destruct (csrf acc); [assumption | apply csrfOf_settled].
  - destruct (companyId acc); [assumption | apply companyOf_settled].
Qed.

Lemma scan_from (scripts : list string) : forall acc : AuthData,
  settled (csrf acc) -> settled (companyId acc) ->
  csrf (fold_left Scraper.scanScript scripts acc)
  = first_some (csrf acc :: map csrfOf scripts)
  /\ companyId (fold_left Scraper.scanScript scripts acc)
     = first_some (companyId acc :: map companyOf scripts).
Proof.
  induction scripts as [|text scripts IH]; intros acc H1 H2.
  - simpl. split; [destruct (csrf acc) | destruct (companyId acc)]; reflexivity.
  - destruct (scanScript_settled acc text H1 H2) as [H1' H2'].
    simpl fold_left. destruct (IH _ H1' H2') as [E1 E2].
    rewrite E1, E2, scanScript_csrf, scanScript_companyId by assumption.
    simpl. split; [destruct (csrf acc) | destruct (companyId acc)]; reflexivity.
Qed.

(** A script that does not match the signature leaves the loop's
    variables as they are. *)
Lemma scanScript_unrelated (acc : AuthData) (text : string) :
  matchesSignature text = false -> Scraper.scanScript acc text = acc.
Proof.
  unfold matchesSignature, Scraper.scanScript.
  destruct (Regex.adomMatch text); [discriminate | reflexivity].
Qed.

Lemma scan_filter (scripts : list string) : forall acc : AuthData,
  fold_left Scraper.scanScript (filter matchesSignature scripts) acc
  = fold_left Scraper.scanScript scripts acc.
Proof.
  induction scripts as [|text scripts IH]; intros acc; simpl; [reflexivity|].
  destruct (matchesSignature text) eqn:E; simpl.
  - apply IH.
  - rewrite scanScript_unrelated by assumption. apply IH.
Qed.

End Scan.

(* ===================================================================== *)
(** ** Embedded-data extraction *)
(* ===================================================================== *)

(** C5. First match wins, for each key on its own: the extracted
    [csrfToken] is the one of the first script, in scanning order, whose
    [aDom.construct] argument defines it, and the extracted
    [currentCompanyId] is the one of the first script that defines that
    key; later values for a key are ignored, and the script that settles
    one key need not be the one that settles the other. *)
Theorem first_match_wins (scripts : list string) :
  csrf (Scraper.extractAuthData scripts) = first_some (map csrfOf scripts)
  /\ companyId (Scraper.extractAuthData scripts)
     = first_some (map companyOf scripts).
Proof.
  unfold Scraper.extractAuthData.
  destruct (scan_from scripts {| csrf := None; companyId := None |})
    as [E1 E2]; try (left; reflexivity).
  rewrite E1, E2. split; reflexivity.
Qed.

(** The scripts of [Sample.page_scripts]: the token comes from the second
    script and the company id from the third, which also defines a
    token. *)
Example first_match_wins_sample :
  Scraper.extractAuthData Sample.page_scripts
  = {| csrf := Some "tok-1"; companyId := Some "77" |}.
Proof. reflexivity. Qed.

(** C6. Extraction only depends on the scripts that match the
    [aDom.construct] signature, in their order: two script lists with the
    same matching scripts in the same order (one obtained from the other
    by adding, removing or moving scripts that do not match) give the same
    values.  And evaluating the extraction again on a page with the same
    scripts gives the same result. *)
Theorem extraction_ignores_unrelated_scripts :
  (forall scripts scripts' : list string,
      filter matchesSignature scripts = filter matchesSignature scripts' ->
      Scraper.extractAuthData scripts = Scraper.extractAuthData scripts')
  /\ (forall (w : World) (h h' : list Event),
         script_texts w h = script_texts w h' ->
         snd (evaluate Scraper.extractAuthData w h)
         = snd (evaluate Scraper.extractAuthData w h')).
Proof.
  split.
  - intros scripts scripts' H. unfold Scraper.extractAuthData.
    rewrite <- (scan_filter scripts), <- (scan_filter scripts'), H.
    reflexivity.
  - intros w h h' H. unfold evaluate; simpl. rewrite H. reflexivity.
Qed.

Lemma extraction_ignores_unrelated_scripts_witness :
  Scraper.extractAuthData
    ("var unrelated = 1;" :: Sample.page_scripts ++ ["console.log('x')"])
  = Scraper.extractAuthData Sample.page_scripts
  /\ snd (evaluate Scraper.extractAuthData Sample.logged_in [])
     = snd (evaluate Scraper.extractAuthData Sample.logged_in [page_url]).
Proof.
  destruct extraction_ignores_unrelated_scripts as [Hfilter Hagain].
  split.
  - apply Hfilter. reflexivity.
  - apply Hagain. reflexivity.
Defined.

(* ===================================================================== *)
(** ** Bundle assembly *)
(* ===================================================================== *)

(** C4. With a missing or empty company id, ['4623'] is what both the
    [X-COMPANY-ID] header and [session_info.company_id] hold; with a
    missing or empty CSRF token the [X-CSRF-Token] header is [null]; and
    whenever that header is not [null] it is the extracted token itself,
    so the constant is never put in its place. *)
Theorem assembler_default_asymmetry
    (jar : list Cookie) (authData : AuthData) (USER now : string) :
  let b := Scraper.buildAuthVariables jar authData USER now in
  (absent (companyId authData) ->
     X_COMPANY_ID (headers b) = Some "4623"
     /\ company_id (session_info b) = Some "4623")
  /\ (absent (csrf authData) -> X_CSRF_Token (headers b) = None)
  /\ (forall v, X_CSRF_Token (headers b) = Some v -> csrf authData = Some v).
Proof.
  simpl. unfold Js.or_else. split; [|split].
  - intros [-> | ->]; split; reflexivity.
  - intros [-> | ->]; reflexivity.
  - intros v. destruct (Js.truthy (csrf authData)); [trivial | discriminate].
Qed.

Lemma assembler_default_asymmetry_witness :
  let authData := {| csrf := None; companyId := Some "" |} in
  let b := Scraper.buildAuthVariables [] authData "alice" "2024-05-01T10:00:00.000Z" in
  X_COMPANY_ID (headers b) = Some "4623"
  /\ company_id (session_info b) = Some "4623"
  /\ X_CSRF_Token (headers b) = None.
Proof.
  intros authData b.
  destruct (assembler_default_asymmetry [] authData "alice" "2024-05-01T10:00:00.000Z")
    as [Hcompany [Htoken _]].
  specialize (Hcompany (or_intror eq_refl)). destruct Hcompany as [H1 H2].
  split; [exact H1 | split; [exact H2 | apply Htoken; left; reflexivity]].
Defined.

(* ===================================================================== *)
(** ** Running an async computation *)
(* ===================================================================== *)

Section Async.

Context {A B : Type}.

Lemma bind_returned (m : M A) (k : A -> M B)
    (w : World) (h h' : list Event) (a : A) :
  m w h = (h', Returned a) -> bind m k w h = k a w h'.
Proof. intros H. unfold bind. rewrite H. reflexivity. Qed.

Lemma bind_thrown (m : M A) (k : A -> M B)
    (w : World) (h h' : list Event) (e : string) :
  m w h = (h', Thrown e) -> bind m k w h = (h', Thrown e).
Proof. intros H. unfold bind. rewrite H. reflexivity. Qed.

Lemma bind_returned_inv (m : M A) (k : A -> M B)
    (w : World) (h h2 : list Event) (b : B) :
  bind m k w h = (h2, Returned b) ->
  exists a h1, m w h = (h1, Returned a) /\ k a w h1 = (h2, Returned b).
Proof.
  unfold bind. destruct (m w h) as [h1 [a|e]]; intros H.
  - exists a, h1. split; [reflexivity | assumption].
  - discriminate.
Qed.

End Async.

(** Symbolic execution: unfold the scraper down to the world's answers,
    then split on the answer the next step waits for. *)

Ltac unfold_scraper :=
  unfold Scraper.getCheckoutChampAuth, Scraper.acquire,
    Scraper.tryBlock, Scraper.catchBlock, Scraper.verifyAndHarvest,
    Scraper.openLoginPage, Scraper.fillAndSubmit, Scraper.verifyLogin,
    Scraper.dashboardReached, promise_all2, catch_null, try_catch,
    bind, call, ret, throw, get_url, query, get_cookies, evaluate, get_now
    in *.

Ltac head_is_match t :=
  lazymatch t with
  | match _ with _ => _ end => constr:(true)
  | ?f _ => head_is_match f
  | _ => constr:(false)
  end.

Ltac head_scrutinee t :=
  lazymatch t with
  | match ?x with _ => _ end => head_scrutinee x
  | ?f _ =>
      lazymatch head_is_match f with
      | true => head_scrutinee f
      | false => t
      end
  | _ => t
  end.

Ltac branch :=
  match goal with
  | |- context [match ?x with _ => _ end] =>
      let y := head_scrutinee x in destruct y eqn:?
  end.

(* ===================================================================== *)
(** ** Credentials *)
(* ===================================================================== *)

(** C7. When the user name or the password is absent ([undefined], or
    empty), the harvest throws the missing-credentials error and has
    issued no call at all: in particular the browser is not launched. *)
Theorem missing_credentials_fail_before_launch (env : Env) (w : World) :
  absent (CHECKOUTCHAMP_USER env) \/ absent (CHECKOUTCHAMP_PASS env) ->
  run (Scraper.getCheckoutChampAuth env) w
  = ([], Thrown "Missing CHECKOUTCHAMP_USER or CHECKOUTCHAMP_PASS environment variables").
Proof.
  intros H. unfold run, Scraper.getCheckoutChampAuth.
  assert (G : negb (Js.truthy (CHECKOUTCHAMP_USER env))
              || negb (Js.truthy (CHECKOUTCHAMP_PASS env)) = true).
  { destruct H as [[-> | ->] | [-> | ->]]; simpl;
      rewrite ?orb_true_r; reflexivity. }
  rewrite G. reflexivity.
Qed.

Lemma missing_credentials_fail_before_launch_witness :
  run (Scraper.getCheckoutChampAuth Sample.env_no_pass) Sample.logged_in
  = ([], Thrown "Missing CHECKOUTCHAMP_USER or CHECKOUTCHAMP_PASS environment variables").
Proof.
  apply missing_credentials_fail_before_launch.
  right; left; reflexivity.
Defined.

(* ===================================================================== *)
(** ** The login steps *)
(* ===================================================================== *)

(** The calls that acquire the page are always the same three. *)
Lemma acquired_trace (w : World) (h : list Event) :
  acquired w h -> h = acquiredTrace.
Proof.
  unfold acquired, Scraper.acquire, bind, call. simpl.
  repeat match goal with
  | |- context [settles ?w ?h ?e] => destruct (settles w h e)
  end; intros H; inversion H; reflexivity.
Qed.

(** And so are the calls up to the end of the settle delay. *)
Lemma submitted_trace (env : Env) (w : World) (h : list Event) :
  submitted env w h ->
  h = submittedTrace (Scraper.text (CHECKOUTCHAMP_USER env))
                     (Scraper.text (CHECKOUTCHAMP_PASS env)).
Proof.
  intros [_ (h0 & h1 & Ha & Ho & Hs)].
  apply acquired_trace in Ha. subst h0.
  revert Ho Hs. unfold_scraper. simpl.
  repeat branch; intros Ho Hs; inversion Ho; subst; inversion Hs; reflexivity.
Qed.

(** Once the form is through, the run is the verification and what follows
    it, under the [catch]. *)
Lemma run_after_submit (env : Env) (w : World) (h : list Event) :
  submitted env w h ->
  run (Scraper.getCheckoutChampAuth env) w
  = try_catch (Scraper.verifyAndHarvest (Scraper.text (CHECKOUTCHAMP_USER env)))
      Scraper.catchBlock w h.
Proof.
  intros [[Hu Hp] (h0 & h1 & Ha & Ho & Hs)].
  unfold run, Scraper.getCheckoutChampAuth. rewrite Hu, Hp. simpl.
  rewrite (bind_returned _ _ _ _ _ _ Ha).
  unfold try_catch, Scraper.tryBlock.
  rewrite (bind_returned _ _ _ _ _ _ Ho), (bind_returned _ _ _ _ _ _ Hs).
  reflexivity.
Qed.

(** The form step returns when the fills, the click and the settle delay
    complete, whatever the wait for the navigation does. *)
Lemma fillAndSubmit_tolerates_wait
    (w : World) (u p : string) (h : list Event) :
  settles w h (page_fill Scraper.USER_FIELD u 5000) = None ->
  settles w (h ++ [page_fill Scraper.USER_FIELD u 5000])
    (page_fill Scraper.PASS_FIELD p 5000) = None ->
  settles w (h ++ [page_fill Scraper.USER_FIELD u 5000;
                   page_fill Scraper.PASS_FIELD p 5000; navigationWait])
    (page_click "#loginBtn") = None ->
  settles w (h ++ [page_fill Scraper.USER_FIELD u 5000;
                   page_fill Scraper.PASS_FIELD p 5000; navigationWait;
                   page_click "#loginBtn"])
    (page_waitForTimeout 2000) = None ->
  Scraper.fillAndSubmit u p w h
  = ((h ++ [page_fill Scraper.USER_FIELD u 5000;
            page_fill Scraper.PASS_FIELD p 5000; navigationWait;
            page_click "#loginBtn"; page_waitForTimeout 2000])%list,
     Returned tt).
Proof.
  intros H1 H2 H3 H4. unfold_scraper. unfold navigationWait in *.
  rewrite H1. rewrite H2.
  repeat (rewrite <- app_assoc; simpl).
  destruct (settles w _ (page_waitForNavigation _ _));
    repeat (rewrite <- app_assoc; simpl); rewrite H3;
    repeat (rewrite <- app_assoc; simpl); rewrite H4;
    repeat (rewrite <- app_assoc; simpl); reflexivity.
Qed.

(** In a world where every call resolves, the run gets through the login
    form. *)
Lemma steady_submitted (url : string) (reports : bool) :
  submitted Sample.env (Sample.steady url reports)
    (submittedTrace "alice" "hunter2").
Proof.
  split; [split; reflexivity|].
  exists acquiredTrace, (acquiredTrace ++ [loginGoto])%list.
  repeat split.
Qed.

Lemma slow_redirect_submitted :
  submitted Sample.env Sample.slow_redirect (submittedTrace "alice" "hunter2").
Proof.
  split; [split; reflexivity|].
  exists acquiredTrace, (acquiredTrace ++ [loginGoto])%list.
  repeat split.
Qed.

(* ===================================================================== *)
(** ** Tolerated and fatal navigation failures *)
(* ===================================================================== *)

Section NavigationWait.

Variables w w' : World.
Hypothesis same : sameExcept is_navigationWait w w'.

Lemma alike_ret {A : Type} (a : A) : alike w w' (ret a).
Proof. intros h; reflexivity. Qed.

Lemma alike_throw {A : Type} (e : string) : alike w w' (@throw A e).
Proof. intros h; reflexivity. Qed.

Lemma alike_bind {A B : Type} (m : M A) (k : A -> M B) :
  alike w w' m -> (forall a, alike w w' (k a)) -> alike w w' (bind m k).
Proof.
  intros Hm Hk h. unfold bind. rewrite <- Hm.
  destruct (m w h) as [h1 [a|e]]; [apply Hk | reflexivity].
Qed.

Lemma alike_try_catch {A : Type} (m : M A) (k : string -> M A) :
  alike w w' m -> (forall e, alike w w' (k e)) -> alike w w' (try_catch m k).
Proof.
  intros Hm Hk h. unfold try_catch. rewrite <- Hm.
  destruct (m w h) as [h1 [a|e]]; [reflexivity | apply Hk].
Qed.

Lemma alike_promise_all2 (a b : M unit) :
  alike w w' a -> alike w w' b -> alike w w' (promise_all2 a b).
Proof.
  intros Ha Hb h. unfold promise_all2. rewrite <- Ha.
  destruct (a w h) as [h1 ra]. rewrite <- Hb. reflexivity.
Qed.

Lemma alike_call (e : Event) : is_navigationWait e = false -> alike w w' (call e).
Proof.
  intros He h. unfold call. destruct same as [Hs _].
  rewrite (Hs h e He). reflexivity.
Qed.

(** A call whose rejection is caught: its outcome does not show. *)
Lemma alike_catch_null_call (e : Event) : alike w w' (catch_null (call e)).
Proof.
  intros h. unfold catch_null, try_catch, call, ret.
  destruct (settles w h e), (settles w' h e); reflexivity.
Qed.

Ltac alike_step :=
  first
    [ apply alike_ret
    | apply alike_throw
    | apply alike_catch_null_call
    | apply alike_call; reflexivity
    | apply alike_promise_all2
    | apply alike_bind; [| intros ?]
    | apply alike_try_catch; [| intros ?] ].

Lemma alike_dashboardReached : alike w w' Scraper.dashboardReached.
Proof.
  destruct same as (_ & Hu & Hq & _).
  intros h. unfold Scraper.dashboardReached, bind, get_url, query, ret.
  rewrite <- Hu. destruct (Js.includes _ _); [reflexivity|].
  rewrite <- Hq. reflexivity.
Qed.

Lemma alike_verifyAndHarvest (USER : string) :
  alike w w' (Scraper.verifyAndHarvest USER).
Proof.
  destruct same as (_ & _ & _ & Hc & Ht & Hk).
  unfold Scraper.verifyAndHarvest, Scraper.verifyLogin.
  apply alike_bind.
  - apply alike_bind; [apply alike_dashboardReached|].
    intros [|]; simpl; [apply alike_ret|].
    apply alike_bind; [apply alike_catch_null_call|].
    intros _. apply alike_dashboardReached.
  - intros [|]; simpl; [|apply alike_throw].
    apply alike_bind; [intros h; unfold get_cookies; rewrite <- Hc; reflexivity|].
    intros jar. apply alike_bind;
      [intros h; unfold evaluate; rewrite <- Ht; reflexivity|].
    intros authData. apply alike_bind; [apply alike_call; reflexivity|].
    intros _. apply alike_bind;
      [intros h; unfold get_now; rewrite <- Hk; reflexivity|].
    intros now. apply alike_ret.
Qed.

Lemma alike_getCheckoutChampAuth (env : Env) :
  alike w w' (Scraper.getCheckoutChampAuth env).
Proof.
  unfold Scraper.getCheckoutChampAuth.
  destruct (negb _ || negb _); [apply alike_throw|].
  unfold Scraper.acquire, Scraper.tryBlock, Scraper.openLoginPage,
    Scraper.fillAndSubmit, Scraper.catchBlock.
  repeat first [apply alike_verifyAndHarvest | alike_step].
Qed.

End NavigationWait.

(** C8. Tolerance of a failed navigation depends on the step.  Once the
    page is acquired:
    - a rejected load of the login page ends the run: the only further
      call is [browser.close()], and the error thrown is the load's;
    - a rejected wait for the navigation after the click does nothing:
      when the load, the two fills, the click and the settle delay
      complete, the run goes on to the verification;
    - more generally the outcome of that wait has no effect on the run. *)
Theorem navigation_failure_tolerance
    (env : Env) (w : World) (reason : string) :
  configured env ->
  acquired w acquiredTrace ->
  let USER := Scraper.text (CHECKOUTCHAMP_USER env) in
  let PASS := Scraper.text (CHECKOUTCHAMP_PASS env) in
  (settles w acquiredTrace loginGoto = Some reason ->
     exists message,
       run (Scraper.getCheckoutChampAuth env) w
       = ((acquiredTrace ++ [loginGoto; browser_close])%list, Thrown message)
       /\ (settles w (acquiredTrace ++ [loginGoto]) browser_close = None ->
           message = reason))
  /\ (formAccepted w USER PASS ->
      settles w (filledTrace USER PASS) navigationWait = Some reason ->
        submitted env w (submittedTrace USER PASS)
        /\ run (Scraper.getCheckoutChampAuth env) w
           = try_catch (Scraper.verifyAndHarvest USER) Scraper.catchBlock
               w (submittedTrace USER PASS))
  /\ (forall w', sameExcept is_navigationWait w w' ->
        run (Scraper.getCheckoutChampAuth env) w
        = run (Scraper.getCheckoutChampAuth env) w').
Proof.
  intros Hcfg Hacq USER PASS. split; [|split].
  - intros Hload. destruct Hcfg as [Hu Hp].
    unfold run, Scraper.getCheckoutChampAuth. rewrite Hu, Hp. simpl.
    rewrite (bind_returned _ _ _ _ _ _ Hacq).
    unfold try_catch, Scraper.tryBlock, Scraper.openLoginPage.
    rewrite (bind_thrown _ _ w acquiredTrace (acquiredTrace ++ [loginGoto]) reason)
      by (unfold call; fold loginGoto; rewrite Hload; reflexivity).
    unfold Scraper.catchBlock, bind, call, throw.
    destruct (settles w _ browser_close) as [m|] eqn:E.
    + exists m. split; [reflexivity|]. intros E'.
      simpl in E, E'. rewrite E' in E. discriminate.
    + exists reason. split; reflexivity.
  - intros (Hload & Hfu & Hfp & Hclick & Hsettle) Hwait.
    assert (Hsub : submitted env w (submittedTrace USER PASS)).
    { split; [exact Hcfg|].
      exists acquiredTrace, (acquiredTrace ++ [loginGoto])%list.
      split; [exact Hacq|]. split.
      - unfold Scraper.openLoginPage, call. fold loginGoto.
        rewrite Hload. reflexivity.
      - rewrite fillAndSubmit_tolerates_wait; [reflexivity | assumption ..]. }
    split; [exact Hsub | apply run_after_submit; exact Hsub].
  - intros w' Hsame. apply alike_getCheckoutChampAuth. exact Hsame.
Qed.

Lemma navigation_failure_tolerance_witness :
  let load_fails :=
    Sample.failing Sample.is_login_goto "page.goto: Timeout 30000ms exceeded."
      Sample.logged_in in
  let wait_fails :=
    Sample.failing is_navigationWait "page.waitForNavigation: Timeout 20000ms exceeded."
      Sample.logged_in in
  (exists message,
      run (Scraper.getCheckoutChampAuth Sample.env) load_fails
      = ((acquiredTrace ++ [loginGoto; browser_close])%list, Thrown message)
      /\ message = "page.goto: Timeout 30000ms exceeded.")
  /\ submitted Sample.env wait_fails (submittedTrace "alice" "hunter2")
  /\ run (Scraper.getCheckoutChampAuth Sample.env) wait_fails
     = run (Scraper.getCheckoutChampAuth Sample.env) Sample.logged_in.
Proof.
  intros load_fails wait_fails.
  assert (Hcfg : configured Sample.env) by (split; reflexivity).
  split; [|split].
  - destruct (navigation_failure_tolerance Sample.env load_fails
                "page.goto: Timeout 30000ms exceeded." Hcfg eq_refl)
      as (H & _ & _).
    destruct H as (message & Hrun & Hmsg); [reflexivity|].
    exists message. split; [exact Hrun | apply Hmsg; reflexivity].
  - destruct (navigation_failure_tolerance Sample.env wait_fails
                "page.waitForNavigation: Timeout 20000ms exceeded." Hcfg eq_refl)
      as (_ & H & _).
    apply H; [repeat split | reflexivity].
  - destruct (navigation_failure_tolerance Sample.env wait_fails
                "page.waitForNavigation: Timeout 20000ms exceeded." Hcfg eq_refl)
      as (_ & _ & H).
    apply H. unfold sameExcept. simpl.
    repeat split. intros h e He. rewrite He. reflexivity.
Defined.

(* ===================================================================== *)
(** ** Login verification *)
(* ===================================================================== *)

(** Reading the signals issues [signalEvents] and gives
    [dashboardSignals]. *)
Lemma dashboardReached_run (w : World) (h : list Event) :
  Scraper.dashboardReached w h
  = ((h ++ signalEvents w h)%list, dashboardSignals w h).
Proof.
  unfold Scraper.dashboardReached, signalEvents, dashboardSignals,
    bind, get_url, query, ret, reportsQuery.
  destruct (Js.includes _ _); [reflexivity|].
  rewrite <- app_assoc. reflexivity.
Qed.

Lemma signals_false (w : World) (h : list Event) :
  dashboardSignals w h = Returned false ->
  signalEvents w h = [page_url; reportsQuery].
Proof.
  unfold dashboardSignals, signalEvents.
  destruct (Js.includes _ _); [discriminate | reflexivity].
Qed.

(** C1. Login verification.  When the run gets through the login form,
    the verification starts right after the click and the 2000 ms settle
    delay, and reads the two signals (the URL contains [/dashboard], or
    else the page has the text [reports]):
    - signals seen: [verifyLogin] returns [true] and no fallback
      navigation is issued;
    - signals not seen: exactly one navigation to the dashboard URL is
      issued (wait until [networkidle], 20000 ms), its outcome is ignored,
      and the result is that of reading the same two signals once more;
    - signals not seen either time: the harvest throws, the only further
      call is [browser.close()], and the error is the login-failed one
      (provided that close does not itself reject). *)
Theorem login_verification (env : Env) (w : World) (h : list Event) :
  submitted env w h ->
  let USER := Scraper.text (CHECKOUTCHAMP_USER env) in
  let PASS := Scraper.text (CHECKOUTCHAMP_PASS env) in
  let hF := (h ++ [page_url; reportsQuery; fallbackGoto])%list in
  h = (filledTrace USER PASS
       ++ [navigationWait; page_click "#loginBtn"; page_waitForTimeout 2000])%list
  /\ (dashboardSignals w h = Returned true ->
        Scraper.verifyLogin w h = ((h ++ signalEvents w h)%list, Returned true)
        /\ count is_dashboard_goto (h ++ signalEvents w h) = 0%nat)
  /\ (dashboardSignals w h = Returned false ->
        Scraper.verifyLogin w h
        = ((hF ++ signalEvents w hF)%list, dashboardSignals w hF)
        /\ count is_dashboard_goto (hF ++ signalEvents w hF) = 1%nat)
  /\ (dashboardSignals w h = Returned false ->
      dashboardSignals w hF = Returned false ->
        exists message,
          run (Scraper.getCheckoutChampAuth env) w
          = ((hF ++ [page_url; reportsQuery; browser_close])%list, Thrown message)
          /\ (settles w (hF ++ [page_url; reportsQuery]) browser_close = None ->
              message = "Login failed - could not reach dashboard")).
Proof.
  intros Hsub USER PASS hF.
  pose proof (submitted_trace env w h Hsub) as Hh. fold USER PASS in Hh.
  assert (Hfirst : dashboardSignals w h = Returned false ->
            Scraper.verifyLogin w h
            = ((hF ++ signalEvents w hF)%list, dashboardSignals w hF)).
  { intros H1. unfold Scraper.verifyLogin.
    rewrite (bind_returned _ _ w h _ false)
      by (rewrite dashboardReached_run, H1, (signals_false _ _ H1); reflexivity).
    simpl (negb _). cbv iota.
    assert (G : catch_null (call fallbackGoto) w (h ++ [page_url; reportsQuery])%list
                = (hF, Returned tt)).
    { unfold catch_null, try_catch, call, ret, hF.
      rewrite <- app_assoc. simpl.
      destruct (settles w _ fallbackGoto); reflexivity. }
    unfold fallbackGoto in G at 1.
    rewrite (bind_returned _ _ _ _ _ _ G).
    apply dashboardReached_run. }
  split; [exact Hh|]. split; [|split].
  - intros H1. split.
    + unfold Scraper.verifyLogin.
      rewrite (bind_returned _ _ w h _ true)
        by (rewrite dashboardReached_run, H1; reflexivity).
      reflexivity.
    + rewrite Hh. unfold signalEvents.
      destruct (Js.includes _ _); reflexivity.
  - intros H1. split; [apply Hfirst; exact H1|].
    unfold hF. rewrite Hh. unfold signalEvents.
    destruct (Js.includes _ _); reflexivity.
  - intros H1 H2.
    rewrite (run_after_submit env w h Hsub).
    unfold try_catch, Scraper.verifyAndHarvest.
    rewrite (bind_returned _ _ w h _ false)
      by (rewrite (Hfirst H1), H2, (signals_false _ _ H2); reflexivity).
    simpl. unfold Scraper.catchBlock, bind, call, throw.
    destruct (settles w _ browser_close) as [m|] eqn:E.
    + exists m. split; [rewrite <- app_assoc; reflexivity|].
      intros E'. unfold reportsQuery in E'. rewrite E' in E. discriminate.
    + exists Scraper.LOGIN_FAILED. split; [rewrite <- app_assoc; reflexivity|].
      reflexivity.
Qed.

Lemma login_verification_witness :
  Scraper.verifyLogin Sample.logged_in (submittedTrace "alice" "hunter2")
  = ((submittedTrace "alice" "hunter2" ++ [page_url])%list, Returned true)
  /\ Scraper.verifyLogin Sample.slow_redirect (submittedTrace "alice" "hunter2")
     = ((submittedTrace "alice" "hunter2"
         ++ [page_url; reportsQuery; fallbackGoto; page_url])%list,
        Returned true)
  /\ exists message,
       run (Scraper.getCheckoutChampAuth Sample.env) Sample.refused
       = ((submittedTrace "alice" "hunter2"
           ++ [page_url; reportsQuery; fallbackGoto;
               page_url; reportsQuery; browser_close])%list,
          Thrown message)
       /\ message = "Login failed - could not reach dashboard".
Proof.
  split; [|split].
  - destruct (login_verification Sample.env Sample.logged_in _
                (steady_submitted _ _)) as (_ & H & _).
    apply H. reflexivity.
  - destruct (login_verification Sample.env Sample.slow_redirect _
                slow_redirect_submitted) as (_ & _ & H & _).
    apply H. reflexivity.
  - destruct (login_verification Sample.env Sample.refused _
                (steady_submitted _ _)) as (_ & _ & _ & H).
    destruct H as (message & Hrun & Hmsg); [reflexivity | reflexivity |].
    exists message. split; [exact Hrun | apply Hmsg; reflexivity].
Defined.

(* ===================================================================== *)
(** ** A bundle only after a confirmed login *)
(* ===================================================================== *)

(** The [catch] block closes the browser and throws. *)
Lemma catchBlock_throws (e : string) (w : World) (h : list Event) :
  exists message,
    Scraper.catchBlock e w h = ((h ++ [browser_close])%list, Thrown message).
Proof.
  unfold Scraper.catchBlock, bind, call, throw.
  destruct (settles w h browser_close); eauto.
Qed.

(** C3. A bundle is returned only after a confirmed login: when the
    harvest returns a bundle, the run got through the login form and
    [verifyLogin] returned [true].  And when [verifyLogin] returns
    [false], the harvest throws: the only call after the verification is
    [browser.close()], so no cookie is read, no script is scanned and no
    bundle is built. *)
Theorem bundle_only_after_confirmation (env : Env) (w : World) :
  (forall trace bundle,
      run (Scraper.getCheckoutChampAuth env) w = (trace, Returned bundle) ->
      exists h h', submitted env w h
                   /\ Scraper.verifyLogin w h = (h', Returned true))
  /\ (forall h h',
        submitted env w h ->
        Scraper.verifyLogin w h = (h', Returned false) ->
        exists message,
          run (Scraper.getCheckoutChampAuth env) w
          = ((h' ++ [browser_close])%list, Thrown message)).
Proof.
  split.
  - intros trace bundle. unfold run, Scraper.getCheckoutChampAuth.
    destruct (Js.truthy (CHECKOUTCHAMP_USER env)) eqn:Hu;
      [|discriminate].
    destruct (Js.truthy (CHECKOUTCHAMP_PASS env)) eqn:Hp;
      [|discriminate].
    simpl. intros H.
    apply bind_returned_inv in H as ([] & h0 & Ha & H).
    unfold try_catch in H.
    destruct (Scraper.tryBlock _ _ w h0) as [h1 [b|e]] eqn:Ht.
    + unfold Scraper.tryBlock in Ht.
      apply bind_returned_inv in Ht as ([] & h2 & Ho & Ht).
      apply bind_returned_inv in Ht as ([] & h3 & Hs & Ht).
      unfold Scraper.verifyAndHarvest in Ht.
      apply bind_returned_inv in Ht as (loggedIn & h4 & Hv & Ht).
      exists h3, h4. split.
      * split; [split; assumption|]. exists h0, h2. auto.
      * destruct loggedIn; [assumption | discriminate].
    + destruct (catchBlock_throws e w h1) as (m & Hc).
      rewrite Hc in H. discriminate.
  - intros h h' Hsub Hv. rewrite (run_after_submit env w h Hsub).
    unfold try_catch, Scraper.verifyAndHarvest.
    rewrite (bind_returned _ _ _ _ _ _ Hv). simpl.
    destruct (catchBlock_throws Scraper.LOGIN_FAILED w h') as (m & Hc).
    unfold throw. rewrite Hc. eauto.
Qed.

Lemma bundle_only_after_confirmation_witness :
  (exists h h',
      submitted Sample.env Sample.logged_in h
      /\ Scraper.verifyLogin Sample.logged_in h = (h', Returned true))
  /\ (exists message,
        run (Scraper.getCheckoutChampAuth Sample.env) Sample.refused
        = ((submittedTrace "alice" "hunter2"
            ++ [page_url; reportsQuery; fallbackGoto;
                page_url; reportsQuery; browser_close])%list,
           Thrown message)).
Proof.
  split.
  - destruct (bundle_only_after_confirmation Sample.env Sample.logged_in)
      as [H _].
    eapply H. reflexivity.
  - destruct (bundle_only_after_confirmation Sample.env Sample.refused)
      as [_ H].
    apply (H (submittedTrace "alice" "hunter2")
             (submittedTrace "alice" "hunter2"
              ++ [page_url; reportsQuery; fallbackGoto; page_url; reportsQuery])%list
             (steady_submitted _ _)).
    reflexivity.
Defined.

(* ===================================================================== *)
(** ** Releasing the browser *)
(* ===================================================================== *)

(** When [browser.close()] does not reject, the [try]/[catch] closes the
    browser exactly once. *)
Lemma release_once (w : World) (u p : string) (h0 : list Event) :
  acquired w h0 ->
  (forall h, settles w h browser_close = None) ->
  count is_close (fst (try_catch (Scraper.tryBlock u p) Scraper.catchBlock w h0)) = 1%nat.
Proof.
  intros Ha Hc. apply acquired_trace in Ha. subst h0.
  unfold try_catch, Scraper.tryBlock, Scraper.catchBlock, Scraper.verifyAndHarvest,
    Scraper.openLoginPage, Scraper.fillAndSubmit, Scraper.verifyLogin,
    Scraper.dashboardReached, promise_all2, catch_null, try_catch,
    bind, call, ret, throw, get_url, query, get_cookies, evaluate, get_now.
  simpl.
  repeat (rewrite ?Hc; simpl; try reflexivity; branch).
Qed.

(** Once the page is acquired, the [try]/[catch] closes the browser at
    least once on every path, and at most twice. *)
Lemma release_within_try (w : World) (USER PASS : string) :
  let trace :=
    fst (try_catch (Scraper.tryBlock USER PASS) Scraper.catchBlock w acquiredTrace) in
  (1 <= count is_close trace <= 2)%nat.
Proof.
  intros trace. subst trace. unfold count. unfold_scraper. simpl.
  repeat (simpl; try solve [split; lia]; branch).
Qed.

(** Once the page is acquired and provided [browser.close()] does not
    reject, the harvest closes the browser exactly once, whether it
    returns a bundle or throws, and whichever step throws. *)
Lemma release_exactly_once (env : Env) (w : World) :
  configured env ->
  acquired w acquiredTrace ->
  (forall h, settles w h browser_close = None) ->
  count is_close (fst (run (Scraper.getCheckoutChampAuth env) w)) = 1%nat.
Proof.
  intros [Hu Hp] Ha Hc. unfold run, Scraper.getCheckoutChampAuth.
  rewrite Hu, Hp. simpl. rewrite (bind_returned _ _ _ _ _ _ Ha).
  apply release_once; assumption.
Qed.

(** C2, at two failing inputs.  First: the browser is launched,
    [browser.newContext] rejects before the [try] block is entered, and
    the error leaves the function with no call to [browser.close()].
    Second: every step succeeds up to the [browser.close()] of line 128,
    which rejects; the [catch] block then calls [browser.close()] again,
    two calls in all. *)
Theorem release_not_exactly_once :
  let context_fails :=
    Sample.failing Sample.is_newContext "browser.newContext: failed"
      Sample.logged_in in
  let close_fails :=
    Sample.failing is_close "browser.close: failed" Sample.logged_in in
  let leaked := run (Scraper.getCheckoutChampAuth Sample.env) context_fails in
  let twice := run (Scraper.getCheckoutChampAuth Sample.env) close_fails in
  leaked
  = ([ chromium_launch true ["--no-sandbox"; "--disable-setuid-sandbox"];
       browser_newContext Scraper.USER_AGENT ],
     Thrown "browser.newContext: failed")
  /\ count is_launch (fst leaked) = 1%nat
  /\ count is_close (fst leaked) = 0%nat
  /\ count is_launch (fst twice) = 1%nat
  /\ count is_close (fst twice) = 2%nat
  /\ snd twice = Thrown "browser.close: failed".
Proof. repeat split. Qed.

(* ===================================================================== *)
(** ** The endpoint *)
(* ===================================================================== *)

Lemma truthy_spec (v : option string) : Js.truthy v = false <-> absent v.
Proof.
  unfold absent. destruct v as [s|]; simpl.
  - destruct (String.eqb_spec s ""); split; intros H; subst; auto; try discriminate.
    destruct H as [H|H]; [discriminate | congruence].
  - split; auto.
Qed.

Lemma strict_neq_spec (a b : option string) :
  Js.strict_neq a b = true <-> a <> b.
Proof.
  destruct a as [x|], b as [y|]; simpl;
    try (split; [intros _; discriminate | reflexivity]).
  - destruct (String.eqb_spec x y); split; intros H;
      try discriminate; try congruence; reflexivity.
  - split; [discriminate | congruence].
Qed.

(** The handler answers 200 with the bundle or 500 with the message. *)
Lemma authHandler_run (env : Env) (w : World) :
  run (Server.authHandler env) w
  = match run (Scraper.getCheckoutChampAuth env) w with
    | (trace, Returned bundle) =>
        (trace, Returned {| Server.status := 200; Server.body := Server.BundleBody bundle |})
    | (trace, Thrown message) =>
        (trace, Returned {| Server.status := 500;
                            Server.body := Server.ErrorBody "Internal Server Error" message |})
    end.
Proof.
  unfold run, Server.authHandler, try_catch, bind, ret.
  destruct (Scraper.getCheckoutChampAuth env w []) as [trace [b|m]]; reflexivity.
Qed.

(** The route always sends a response. *)
Lemma postApiAuth_returns (env : Env) (req : Server.Request) (w : World) :
  exists trace res, run (Server.postApiAuth env req) w = (trace, Returned res).
Proof.
  unfold Server.postApiAuth.
  destruct (Server.req_json req) as [|s].
  - destruct (Server.verifyApiToken env req).
    + exists [], res. reflexivity.
    + rewrite authHandler_run.
      destruct (run (Scraper.getCheckoutChampAuth env) w) as [trace [b|m]]; eauto.
  - eexists [], _. reflexivity.
Qed.

(** The status of the default error handler is an error status. *)
Lemma errorStatus_range (s : Z) :
  (400 <= Server.errorStatus s < 600)%Z.
Proof.
  unfold Server.errorStatus.
  destruct (400 <=? s)%Z eqn:E1; simpl; [|lia].
  destruct (s <? 600)%Z eqn:E2; [|lia].
  apply Z.leb_le in E1. apply Z.ltb_lt in E2. lia.
Qed.

(** A request the body parser rejects is answered by the default error
    handler, whatever its token; the middleware and the handler are not
    run. *)
Lemma serve_rejected (env : Env) (req : Server.Request) (w : World) (s : Z) :
  Server.req_json req = Server.Rejected s ->
  Server.serve env req w
  = ([], Some {| Server.status := Server.errorStatus s;
                 Server.body := Server.ErrorPage |}).
Proof.
  intros Hj. unfold Server.serve, Server.postApiAuth. rewrite Hj. reflexivity.
Qed.

Lemma serve_unauthorized (env : Env) (req : Server.Request) (w : World) :
  Server.req_json req = Server.Passed ->
  absent (Server.req_headers req "x-api-token") ->
  Server.serve env req w
  = ([], Some {| Server.status := 401;
                 Server.body := Server.ErrorBody "Unauthorized" "Missing X-API-Token header" |}).
Proof.
  intros Hj H. unfold Server.serve, Server.postApiAuth, Server.verifyApiToken.
  rewrite Hj. apply truthy_spec in H. rewrite H. reflexivity.
Qed.

Lemma serve_forbidden (env : Env) (req : Server.Request) (w : World) (t : string) :
  Server.req_json req = Server.Passed ->
  Server.req_headers req "x-api-token" = Some t -> t <> "" ->
  Some t <> API_TOKEN env ->
  Server.serve env req w
  = ([], Some {| Server.status := 403;
                 Server.body := Server.ErrorBody "Forbidden" "Invalid API token" |}).
Proof.
  intros Hj Ht Hne Hneq.
  unfold Server.serve, Server.postApiAuth, Server.verifyApiToken.
  rewrite Hj, Ht, (truthy_nonempty t Hne). simpl (negb _). cbv iota.
  apply strict_neq_spec in Hneq. rewrite Hneq. reflexivity.
Qed.

Lemma serve_authorized (env : Env) (req : Server.Request) (w : World) (t : string) :
  Server.req_json req = Server.Passed ->
  Server.req_headers req "x-api-token" = Some t -> t <> "" ->
  Some t = API_TOKEN env ->
  Server.serve env req w
  = match run (Scraper.getCheckoutChampAuth env) w with
    | (trace, Returned bundle) =>
        (trace, Some {| Server.status := 200;
                        Server.body := Server.BundleBody bundle |})
    | (trace, Thrown message) =>
        (trace, Some {| Server.status := 500;
                        Server.body := Server.ErrorBody "Internal Server Error" message |})
    end.
Proof.
  intros Hj Ht Hne Heq.
  unfold Server.serve, Server.postApiAuth, Server.verifyApiToken.
  rewrite Hj, Ht, (truthy_nonempty t Hne). simpl (negb _). cbv iota.
  assert (G : Js.strict_neq (Some t) (API_TOKEN env) = false).
  { destruct (Js.strict_neq _ _) eqn:E; [|reflexivity].
    apply strict_neq_spec in E. contradiction. }
  rewrite G, authHandler_run.
  destruct (run (Scraper.getCheckoutChampAuth env) w) as [trace [b|m]];
    reflexivity.
Qed.

(** C9 (amended). [POST /api/auth].  A request whose body the JSON body
    parser of line 11 rejects is answered by Express's error handler with
    the status of the parser's error (400 for a body that does not parse),
    before the token is looked at and whatever the token is.  Of the
    requests the parser lets through: one without the [X-API-Token]
    header, or with an empty one, is answered 401 [Unauthorized]; one with
    a non-empty token that is not the configured one, 403 [Forbidden]; one
    with the configured, non-empty token, 500 [Internal Server Error] with
    the thrown error's message when the harvest throws, and 200 with the
    bundle as body when it returns one.  Only in the last two cases is the
    scraper run. *)
Theorem auth_endpoint_contract (env : Env) (req : Server.Request) (w : World) :
  let token := Server.req_headers req "x-api-token" in
  (forall s, Server.req_json req = Server.Rejected s ->
     Server.serve env req w
     = ([], Some {| Server.status := Server.errorStatus s;
                    Server.body := Server.ErrorPage |}))
  /\ (Server.req_json req = Server.Passed ->
      (absent token ->
         Server.serve env req w
         = ([], Some {| Server.status := 401;
                        Server.body := Server.ErrorBody "Unauthorized" "Missing X-API-Token header" |}))
      /\ (forall t, token = Some t -> t <> "" -> Some t <> API_TOKEN env ->
            Server.serve env req w
            = ([], Some {| Server.status := 403;
                           Server.body := Server.ErrorBody "Forbidden" "Invalid API token" |}))
      /\ (forall t, token = Some t -> t <> "" -> Some t = API_TOKEN env ->
            (forall trace message,
                run (Scraper.getCheckoutChampAuth env) w = (trace, Thrown message) ->
                Server.serve env req w
                = (trace, Some {| Server.status := 500;
                                  Server.body := Server.ErrorBody "Internal Server Error" message |}))
            /\ (forall trace bundle,
                  run (Scraper.getCheckoutChampAuth env) w = (trace, Returned bundle) ->
                  Server.serve env req w
                  = (trace, Some {| Server.status := 200;
                                    Server.body := Server.BundleBody bundle |})))).
Proof.
  intros token. split; [|intros Hj; split; [|split]].
  - intros s. apply serve_rejected.
  - apply serve_unauthorized. exact Hj.
  - intros t. apply serve_forbidden. exact Hj.
  - intros t Ht Hne Heq.
    rewrite (serve_authorized env req w t Hj Ht Hne Heq).
    split; intros trace x H; rewrite H; reflexivity.
Qed.

(** The counterexample to C9 as stated: the header is present, its value
    (the empty string) is not the configured token, and the answer is 401
    [Unauthorized], not 403 [Forbidden]. *)
Lemma empty_token_header_is_unauthorized :
  Server.req_headers (Sample.request (Some "")) "x-api-token" = Some ""
  /\ API_TOKEN Sample.env = Some "secret"
  /\ Server.serve Sample.env (Sample.request (Some "")) Sample.logged_in
     = ([], Some {| Server.status := 401;
                    Server.body := Server.ErrorBody "Unauthorized" "Missing X-API-Token header" |}).
Proof. repeat split. Qed.

(** The four answers on sample requests, and the answer 400 to a request
    that carries the configured token and a body that does not parse. *)
Lemma auth_endpoint_contract_witness :
  Server.serve Sample.env (Sample.request None) Sample.logged_in
  = ([], Some {| Server.status := 401;
                 Server.body := Server.ErrorBody "Unauthorized" "Missing X-API-Token header" |})
  /\ Server.serve Sample.env (Sample.request (Some "guess")) Sample.logged_in
     = ([], Some {| Server.status := 403;
                    Server.body := Server.ErrorBody "Forbidden" "Invalid API token" |})
  /\ Server.serve Sample.env (Sample.request (Some "secret")) Sample.refused
     = (fst (run (Scraper.getCheckoutChampAuth Sample.env) Sample.refused),
        Some {| Server.status := 500;
                Server.body := Server.ErrorBody "Internal Server Error"
                                 "Login failed - could not reach dashboard" |})
  /\ Server.serve Sample.env (Sample.malformed_request (Some "secret")) Sample.logged_in
     = ([], Some {| Server.status := 400; Server.body := Server.ErrorPage |}).
Proof.
  split; [|split; [|split]].
  - apply (auth_endpoint_contract Sample.env (Sample.request None) Sample.logged_in).
    + reflexivity.
    + left; reflexivity.
  - apply (auth_endpoint_contract Sample.env (Sample.request (Some "guess"))
             Sample.logged_in) with (t := "guess");
      [reflexivity | reflexivity | discriminate | discriminate].
  - apply (auth_endpoint_contract Sample.env (Sample.request (Some "secret"))
             Sample.refused) with (t := "secret");
      [reflexivity | reflexivity | discriminate | reflexivity | reflexivity].
  - apply (proj1 (auth_endpoint_contract Sample.env
                    (Sample.malformed_request (Some "secret")) Sample.logged_in)
             400%Z).
    reflexivity.
Defined.

(** C10 (amended). Without [API_TOKEN] in the environment no request gets
    past the middleware.  A request whose body the JSON body parser of
    line 11 rejects is answered with the status of the parser's error
    before the token is looked at.  Of the requests the parser lets
    through, one with a non-empty [X-API-Token] header is answered 403,
    and one without the header or with an empty one is answered 401.  In
    every case the scraper is not run (no call is issued) and the status
    of the answer is an error status, never 200. *)
Theorem unset_token_rejects_every_request
    (env : Env) (req : Server.Request) (w : World) :
  API_TOKEN env = None ->
  let token := Server.req_headers req "x-api-token" in
  (forall s, Server.req_json req = Server.Rejected s ->
     Server.serve env req w
     = ([], Some {| Server.status := Server.errorStatus s;
                    Server.body := Server.ErrorPage |}))
  /\ (Server.req_json req = Server.Passed ->
      (forall t, token = Some t -> t <> "" ->
         Server.serve env req w
         = ([], Some {| Server.status := 403;
                        Server.body := Server.ErrorBody "Forbidden" "Invalid API token" |}))
      /\ (absent token ->
            Server.serve env req w
            = ([], Some {| Server.status := 401;
                           Server.body := Server.ErrorBody "Unauthorized" "Missing X-API-Token header" |})))
  /\ (exists res, Server.serve env req w = ([], Some res)
                  /\ (400 <= Server.status res < 600)%Z
                  /\ (Server.req_json req = Server.Passed ->
                      (Server.status res = 401 \/ Server.status res = 403)%Z)).
Proof.
  intros Hunset token.
  pose proof (serve_unauthorized env req w) as H401.
  pose proof (serve_forbidden env req w) as H403.
  fold token in H401, H403.
  assert (Hpresent : Server.req_json req = Server.Passed ->
            forall t, token = Some t -> t <> "" ->
            Server.serve env req w
            = ([], Some {| Server.status := 403;
                           Server.body := Server.ErrorBody "Forbidden" "Invalid API token" |})).
  { intros Hj t Ht Hne. apply (H403 t Hj Ht Hne). rewrite Hunset. discriminate. }
  split; [intros s; apply serve_rejected|].
  split; [intros Hj; split; [exact (Hpresent Hj) | exact (H401 Hj)]|].
  destruct (Server.req_json req) as [|s] eqn:Ej.
  - destruct token as [t|] eqn:Et.
    + destruct (String.eqb_spec t "") as [->|Hne].
      * eexists. split; [apply (H401 eq_refl); right; reflexivity|].
        simpl. split; [lia | left; reflexivity].
      * eexists. split; [apply (Hpresent eq_refl t eq_refl Hne)|].
        simpl. split; [lia | right; reflexivity].
    + eexists. split; [apply (H401 eq_refl); left; reflexivity|].
      simpl. split; [lia | left; reflexivity].
  - eexists. split; [apply (serve_rejected env req w s Ej)|].
    simpl. split; [apply errorStatus_range | discriminate].
Qed.

(** The counterexample to C10 as stated: [API_TOKEN] is not set, the header
    is present (with the empty string as value), and the answer is 401,
    not 403. *)
Lemma unset_token_empty_header_is_unauthorized :
  API_TOKEN Sample.env_no_token = None
  /\ Server.req_headers (Sample.request (Some "")) "x-api-token" = Some ""
  /\ Server.serve Sample.env_no_token (Sample.request (Some "")) Sample.logged_in
     = ([], Some {| Server.status := 401;
                    Server.body := Server.ErrorBody "Unauthorized" "Missing X-API-Token header" |}).
Proof. repeat split. Qed.

(** The three answers on sample requests: 403, 401, and 400 to a request
    without the header whose body does not parse. *)
Lemma unset_token_rejects_every_request_witness :
  Server.serve Sample.env_no_token (Sample.request (Some "undefined")) Sample.logged_in
  = ([], Some {| Server.status := 403;
                 Server.body := Server.ErrorBody "Forbidden" "Invalid API token" |})
  /\ Server.serve Sample.env_no_token (Sample.request None) Sample.logged_in
     = ([], Some {| Server.status := 401;
                    Server.body := Server.ErrorBody "Unauthorized" "Missing X-API-Token header" |})
  /\ Server.serve Sample.env_no_token (Sample.malformed_request None) Sample.logged_in
     = ([], Some {| Server.status := 400; Server.body := Server.ErrorPage |}).
Proof.
  split; [|split].
  - apply (unset_token_rejects_every_request Sample.env_no_token
             (Sample.request (Some "undefined")) Sample.logged_in eq_refl)
      with (t := "undefined"); [reflexivity | reflexivity | discriminate].
  - apply (unset_token_rejects_every_request Sample.env_no_token
             (Sample.request None) Sample.logged_in eq_refl).
    + reflexivity.
    + left; reflexivity.
  - apply (proj1 (unset_token_rejects_every_request Sample.env_no_token
                    (Sample.malformed_request None) Sample.logged_in eq_refl)
             400%Z).
    reflexivity.
Defined.

(* ===================================================================== *)
(** ** More on the patterns: what they capture, what they read back *)
(* ===================================================================== *)

Section MorePatternFacts.

Import Regex.

Lemma span_all (cls : ascii -> bool) (s : string) :
  all_chars cls (fst (span cls s)) = true.
Proof.
  induction s as [|c s IH]; simpl; [reflexivity|].
  destruct (cls c) eqn:E; [|reflexivity].
  destruct (span cls s); simpl in *. rewrite E, IH. reflexivity.
Qed.

Lemma group_plus_all (cls : ascii -> bool) (s g rest : string) :
  group_plus cls s = Some (g, rest) -> all_chars cls g = true.
Proof.
  unfold group_plus. pose proof (span_all cls s) as H.
  destruct (span cls s) as [run rest']. simpl in H.
  destruct run; intros E; inversion E; subst; assumption.
Qed.

Lemma span_prefix (cls : ascii -> bool) (v rest : string) :
  all_chars cls v = true -> stops cls rest -> span cls (v ++ rest) = (v, rest).
Proof.
  intros Hv Hr. induction v as [|c v IH]; simpl in *.
  - destruct rest as [|c r]; simpl in *; [reflexivity|]. rewrite Hr. reflexivity.
  - apply andb_prop in Hv as [Hc Hv]. rewrite Hc, (IH Hv). reflexivity.
Qed.

Lemma star_prefix (cls : ascii -> bool) (v rest : string) :
  all_chars cls v = true -> stops cls rest -> star cls (v ++ rest) = rest.
Proof.
  intros Hv Hr. rewrite <- span_star, (span_prefix cls v rest Hv Hr). reflexivity.
Qed.

Lemma group_plus_prefix (cls : ascii -> bool) (v rest : string) :
  v <> "" -> all_chars cls v = true -> stops cls rest ->
  group_plus cls (v ++ rest) = Some (v, rest).
Proof.
  intros Hne Hv Hr. unfold group_plus. rewrite (span_prefix cls v rest Hv Hr).
  destruct v; [contradiction | reflexivity].
Qed.

Lemma search_here {A : Type} (at_pos : string -> option A) (s : string) (v : A) :
  at_pos s = Some v -> search at_pos s = Some v.
Proof. intros H. destruct s; simpl; rewrite H; reflexivity. Qed.

Lemma search_skip {A : Type} (at_pos : string -> option A) (c : ascii) (s : string) :
  at_pos (String c s) = None -> search at_pos (String c s) = search at_pos s.
Proof. intros H. simpl. rewrite H. reflexivity. Qed.

Lemma search_skip_run {A : Type} (at_pos : string -> option A)
    (cls : ascii -> bool) (v rest : string) :
  (forall c s, cls c = true -> at_pos (String c s) = None) ->
  all_chars cls v = true ->
  search at_pos (v ++ rest) = search at_pos rest.
Proof.
  intros H. induction v as [|c v IH]; simpl; [reflexivity|].
  intros E. apply andb_prop in E as [E1 E2].
  rewrite (H c _ E1). apply IH; exact E2.
Qed.

Lemma lit_app (l s : string) : lit l (l ++ s) = Some s.
Proof.
  induction l as [|a l IH]; simpl; [reflexivity|].
  rewrite Ascii.eqb_refl. exact IH.
Qed.

Lemma string_app_assoc (a b c : string) : (a ++ b) ++ c = a ++ (b ++ c).
Proof.
  induction a as [|x a IH]; simpl; [reflexivity | rewrite IH; reflexivity].
Qed.

Lemma all_chars_app (cls : ascii -> bool) (a b : string) :
  all_chars cls (a ++ b) = all_chars cls a && all_chars cls b.
Proof.
  induction a as [|x a IH]; simpl; [reflexivity|].
  rewrite IH, andb_assoc. reflexivity.
Qed.

Lemma all_chars_weaken (cls cls' : ascii -> bool) (s : string) :
  (forall c, cls c = true -> cls' c = true) ->
  all_chars cls s = true -> all_chars cls' s = true.
Proof.
  intros H. induction s as [|c s IH]; simpl; [reflexivity|].
  intros E. apply andb_prop in E as [E1 E2].
  rewrite (H c E1), (IH E2). reflexivity.
Qed.

Lemma digit_not_rbrace (c : ascii) : is_digit c = true -> not_rbrace c = true.
Proof.
  unfold is_digit, not_rbrace. cbv zeta. intros H.
  apply andb_prop in H as [_ H]. apply N.leb_le in H.
  destruct (code c =? 125)%N eqn:E; [apply N.eqb_eq in E; lia | reflexivity].
Qed.

Lemma not_quote_no_quote (c : ascii) : not_quote c = true -> is_quote c = false.
Proof.
  unfold not_quote. destruct (is_quote c); [discriminate | reflexivity].
Qed.

(** *** What a match captures *)

Lemma adom_at_capture (s c : string) :
  adom_at s = Some c -> c <> "" /\ all_chars not_rbrace c = true.
Proof.
  unfold adom_at, bind.
  destruct (lit "aDom.construct" s) as [s1|]; [|discriminate].
  destruct (lit "(" _) as [s2|]; [|discriminate].
  destruct (lit "{" _) as [s3|]; [|discriminate].
  destruct (group_plus not_rbrace s3) as [[g s4]|] eqn:G; [|discriminate].
  destruct (lit "}" s4) as [s5|]; [|discriminate].
  destruct (lit ")" _); [|discriminate].
  intros H; inversion H; subst. split.
  - eapply group_plus_nonempty; eassumption.
  - eapply group_plus_all; eassumption.
Qed.

Lemma key_value_at_capture (key : string) (cls : ascii -> bool) (s v : string) :
  key_value_at key cls s = Some v -> v <> "" /\ all_chars cls v = true.
Proof.
  intros H. split; [eapply key_value_at_nonempty; eassumption|].
  revert H. unfold key_value_at, bind.
  destruct (lit key _) as [s1|]; [|discriminate].
  destruct (lit ":" _) as [s2|]; [|discriminate].
  destruct (one is_quote _) as [s3|]; [|discriminate].
  destruct (group_plus cls s3) as [[g s4]|] eqn:G; [|discriminate].
  destruct (one is_quote s4); [|discriminate].
  intros H; inversion H; subst. eapply group_plus_all; eassumption.
Qed.

Lemma adomMatch_capture (text c : string) :
  adomMatch text = Some c -> c <> "" /\ all_chars not_rbrace c = true.
Proof.
  intros H. rewrite adomMatch_greedy in H.
  apply search_found in H as [s' H]. eapply adom_at_capture; eassumption.
Qed.

Lemma csrfMatch_capture (configStr t : string) :
  csrfMatch configStr = Some t -> t <> "" /\ all_chars not_quote t = true.
Proof.
  intros H. rewrite csrfMatch_greedy in H.
  apply search_found in H as [s' H]. eapply key_value_at_capture; eassumption.
Qed.

Lemma companyMatch_capture (configStr id : string) :
  companyMatch configStr = Some id -> id <> "" /\ all_chars is_digit id = true.
Proof.
  intros H. rewrite companyMatch_greedy in H.
  apply search_found in H as [s' H]. eapply key_value_at_capture; eassumption.
Qed.

(** X1. What the three patterns capture: the argument text read by the
    [aDom.construct] pattern is never empty and has no closing brace in
    it; a captured [csrfToken] is never empty and has neither quote
    character in it; a captured [currentCompanyId] is a non-empty string
    of digits. *)
Theorem captures_well_formed :
  (forall text c, adomMatch text = Some c ->
     c <> "" /\ all_chars not_rbrace c = true)
  /\ (forall configStr t, csrfMatch configStr = Some t ->
        t <> "" /\ all_chars not_quote t = true)
  /\ (forall configStr id, companyMatch configStr = Some id ->
        id <> "" /\ all_chars is_digit id = true).
Proof.
  split; [exact adomMatch_capture|].
  split; [exact csrfMatch_capture | exact companyMatch_capture].
Qed.

Lemma captures_well_formed_witness :
  ("abc" <> "" /\ all_chars not_quote "abc" = true)
  /\ ("77" <> "" /\ all_chars is_digit "77" = true).
Proof.
  destruct captures_well_formed as (_ & Hcsrf & Hcompany).
  split.
  - apply (Hcsrf " csrfToken: 'abc', currentCompanyId : '77' "). reflexivity.
  - apply (Hcompany " csrfToken: 'abc', currentCompanyId : '77' "). reflexivity.
Defined.

(** *** Reading back what a page writes *)

Lemma adom_at_reads (ws1 ws2 ws3 c rest : string) :
  all_chars is_space ws1 = true ->
  all_chars is_space ws2 = true ->
  all_chars is_space ws3 = true ->
  c <> "" -> all_chars not_rbrace c = true ->
  adom_at ("aDom.construct" ++ ws1 ++ "(" ++ ws2 ++ "{" ++ c ++ "}"
           ++ ws3 ++ ")" ++ rest)
  = Some c.
Proof.
  intros H1 H2 H3 Hne Hc. unfold adom_at, bind.
  rewrite lit_app.
  rewrite (star_prefix is_space ws1) by (assumption || reflexivity).
  cbn [lit append Ascii.eqb Bool.eqb].
  rewrite (star_prefix is_space ws2) by (assumption || reflexivity).
  cbn [lit append Ascii.eqb Bool.eqb].
  rewrite (group_plus_prefix not_rbrace c) by (assumption || reflexivity).
  cbn [lit append Ascii.eqb Bool.eqb].
  rewrite (star_prefix is_space ws3) by (assumption || reflexivity).
  reflexivity.
Qed.

(** X2. A script that starts with a call [aDom.construct({c})], with any
    white space around the parenthesis and the braces, gives [c] as the
    argument text, whatever follows the call: a later call in the same
    script is never read. *)
Theorem adomMatch_reads_first_call (ws1 ws2 ws3 c rest : string) :
  all_chars is_space ws1 = true ->
  all_chars is_space ws2 = true ->
  all_chars is_space ws3 = true ->
  c <> "" -> all_chars not_rbrace c = true ->
  adomMatch ("aDom.construct" ++ ws1 ++ "(" ++ ws2 ++ "{" ++ c ++ "}"
             ++ ws3 ++ ")" ++ rest)
  = Some c.
Proof.
  intros H1 H2 H3 Hne Hc. rewrite adomMatch_greedy. apply search_here.
  apply adom_at_reads; assumption.
Qed.

Lemma adomMatch_reads_first_call_witness :
  adomMatch ("aDom.construct" ++ " " ++ "(" ++ "" ++ "{" ++ "a: '1'" ++ "}"
             ++ " " ++ ")" ++ "; aDom.construct({csrfToken: 'x'});")
  = Some "a: '1'".
Proof.
  apply adomMatch_reads_first_call; try reflexivity. discriminate.
Defined.

Lemma opt_stops (cls : ascii -> bool) (s : string) :
  stops cls s -> opt cls s = s.
Proof. destruct s as [|c s]; simpl; [reflexivity|]. intros ->. reflexivity. Qed.

Lemma opt_optional (oq s : string) :
  optional_quote oq -> stops is_quote s -> opt is_quote (oq ++ s) = s.
Proof.
  intros [-> | (q & Hq & ->)] Hs; simpl.
  - apply opt_stops; assumption.
  - rewrite Hq. reflexivity.
Qed.

Lemma stops_spaces_then (cls : ascii -> bool) (ws s : string) :
  (forall c, is_space c = true -> cls c = false) ->
  all_chars is_space ws = true -> stops cls s -> stops cls (ws ++ s).
Proof.
  intros Hd Hws Hs. destruct ws as [|c ws]; simpl in *; [assumption|].
  apply andb_prop in Hws as [Hc _]. apply Hd; assumption.
Qed.

Lemma key_value_at_reads
    (a : ascii) (l : string) (cls : ascii -> bool)
    (oq1 oq2 ws1 ws2 : string) (q q' : ascii) (v rest : string) :
  is_quote a = false ->
  (forall c, cls c = true -> is_quote c = false) ->
  optional_quote oq1 -> optional_quote oq2 ->
  all_chars is_space ws1 = true -> all_chars is_space ws2 = true ->
  is_quote q = true -> is_quote q' = true ->
  v <> "" -> all_chars cls v = true ->
  key_value_at (String a l) cls
    (oq1 ++ String a l ++ oq2 ++ ws1 ++ ":" ++ ws2
     ++ String q (v ++ String q' rest))
  = Some v.
Proof.
  intros Ha Hcls Ho1 Ho2 Hw1 Hw2 Hq Hq' Hne Hv.
  unfold key_value_at, bind.
  rewrite (opt_optional oq1) by (assumption || exact Ha).
  rewrite lit_app.
  rewrite (opt_optional oq2)
    by first [ assumption
             | apply stops_spaces_then;
               [exact space_not_quote | assumption | reflexivity] ].
  rewrite (star_prefix is_space ws1) by (assumption || reflexivity).
  cbn [lit append Ascii.eqb Bool.eqb].
  rewrite (star_prefix is_space ws2)
    by first [assumption | simpl; apply quote_not_space; exact Hq].
  cbn [one]. rewrite Hq.
  rewrite (group_plus_prefix cls v)
    by first [ assumption
             | simpl; destruct (cls q') eqn:E; [|reflexivity];
               apply Hcls in E; congruence ].
  cbn [one]. rewrite Hq'. reflexivity.
Qed.

(** X3. A config text that starts with the key, bare or between quotes,
    then a colon with any white space around it, then the value between
    two quote characters, gives the value back, for both keys.  The two
    quote characters around the value need not be the same one. *)
Theorem key_value_round_trip
    (oq1 oq2 ws1 ws2 : string) (q q' : ascii) (rest : string) :
  optional_quote oq1 -> optional_quote oq2 ->
  all_chars is_space ws1 = true -> all_chars is_space ws2 = true ->
  is_quote q = true -> is_quote q' = true ->
  (forall t, t <> "" -> all_chars not_quote t = true ->
     csrfMatch (oq1 ++ "csrfToken" ++ oq2 ++ ws1 ++ ":" ++ ws2
                ++ String q (t ++ String q' rest))
     = Some t)
  /\ (forall id, id <> "" -> all_chars is_digit id = true ->
        companyMatch (oq1 ++ "currentCompanyId" ++ oq2 ++ ws1 ++ ":" ++ ws2
                      ++ String q (id ++ String q' rest))
        = Some id).
Proof.
  intros Ho1 Ho2 Hw1 Hw2 Hq Hq'. split.
  - intros t Hne Ht. rewrite csrfMatch_greedy. apply search_here.
    apply key_value_at_reads; try assumption; try reflexivity.
    exact not_quote_no_quote.
  - intros id Hne Hid. rewrite companyMatch_greedy. apply search_here.
    apply key_value_at_reads; try assumption; try reflexivity.
    exact digit_not_quote.
Qed.

(** The key between quotes, a tab before the value, and the value between
    an apostrophe and a double quote. *)
Lemma key_value_round_trip_witness :
  csrfMatch ("'" ++ "csrfToken" ++ "'" ++ " " ++ ":"
             ++ String (ascii_of_nat 9) ""
             ++ String "'" ("tok-1" ++ String (ascii_of_nat 34) ", x: 1"))
  = Some "tok-1".
Proof.
  apply (key_value_round_trip "'" "'" " " (String (ascii_of_nat 9) "")
           "'"%char (ascii_of_nat 34) ", x: 1");
    try reflexivity;
    try (right; exists "'"%char; split; reflexivity).
  discriminate.
Defined.

End MorePatternFacts.

(* ===================================================================== *)
(** ** More on the scan: composition, and from the page to the bundle *)
(* ===================================================================== *)

Section MoreScan.

Import Regex.

Lemma first_some_app {A : Type} (l1 l2 : list (option A)) :
  first_some (l1 ++ l2)
  = match first_some l1 with
    | Some v => Some v
    | None => first_some l2
    end.
Proof.
  induction l1 as [|[v|] l1 IH]; simpl; [reflexivity | reflexivity | exact IH].
Qed.

Lemma first_some_in {A : Type} (l : list (option A)) (v : A) :
  first_some l = Some v -> In (Some v) l.
Proof.
  induction l as [|[x|] l IH]; simpl; intros H.
  - discriminate.
  - left. exact H.
  - right. apply IH; exact H.
Qed.

(** The two fields of the extraction, as first values found. *)
Lemma extract_fields (scripts : list string) :
  Scraper.extractAuthData scripts
  = {| csrf := first_some (map csrfOf scripts);
       companyId := first_some (map companyOf scripts) |}.
Proof.
  unfold Scraper.extractAuthData.
  destruct (scan_from scripts {| csrf := None; companyId := None |})
    as [E1 E2]; try (left; reflexivity).
  simpl in E1, E2.
  destruct (fold_left Scraper.scanScript scripts _) as [c i]; simpl in *.
  rewrite E1, E2. reflexivity.
Qed.

(** Scripts without the signature contribute nothing. *)
Lemma extract_unrelated (scripts : list string) :
  (forall text, In text scripts -> matchesSignature text = false) ->
  Scraper.extractAuthData scripts = {| csrf := None; companyId := None |}.
Proof.
  intros H. unfold Scraper.extractAuthData. rewrite <- scan_filter.
  replace (filter matchesSignature scripts) with (@nil string); [reflexivity|].
  symmetry. induction scripts as [|s l IH]; simpl; [reflexivity|].
  rewrite (H s) by (left; reflexivity). apply IH.
  intros t Ht. apply H. right; exact Ht.
Qed.

(** X4. Extraction composes over concatenation: the values extracted from
    [scripts1 ++ scripts2] are those of [scripts1], completed key by key
    with those of [scripts2] where [scripts1] gave none. *)
Theorem extraction_of_concatenation (scripts1 scripts2 : list string) :
  Scraper.extractAuthData (scripts1 ++ scripts2)
  = merge (Scraper.extractAuthData scripts1) (Scraper.extractAuthData scripts2).
Proof.
  rewrite !extract_fields, !map_app, !first_some_app. reflexivity.
Qed.

Lemma csrfOf_capture (text t : string) :
  csrfOf text = Some t -> t <> "" /\ all_chars not_quote t = true.
Proof.
  unfold csrfOf, Regex.bind. destruct (adomMatch text) as [c|]; [|discriminate].
  apply csrfMatch_capture.
Qed.

Lemma companyOf_capture (text id : string) :
  companyOf text = Some id -> id <> "" /\ all_chars is_digit id = true.
Proof.
  unfold companyOf, Regex.bind. destruct (adomMatch text) as [c|]; [|discriminate].
  apply companyMatch_capture.
Qed.

(** X5. Whatever the scripts of the page are, the company id of the bundle
    is the same in the [X-COMPANY-ID] header and in [session_info], and is
    a non-empty string of digits (an extracted one, or [4623]); and the
    [X-CSRF-Token] header is [null] or a non-empty string with no quote
    character in it. *)
Theorem bundle_values_well_formed
    (jar : list Cookie) (scripts : list string) (USER now : string) :
  let b := Scraper.buildAuthVariables jar (Scraper.extractAuthData scripts) USER now in
  X_COMPANY_ID (headers b) = company_id (session_info b)
  /\ (exists id, X_COMPANY_ID (headers b) = Some id
                 /\ id <> "" /\ all_chars is_digit id = true)
  /\ (forall t, X_CSRF_Token (headers b) = Some t ->
        t <> "" /\ all_chars not_quote t = true).
Proof.
  simpl. rewrite extract_fields. simpl. unfold Js.or_else.
  split; [reflexivity|]. split.
  - destruct (first_some (map companyOf scripts)) as [id|] eqn:E.
    + apply first_some_in, in_map_iff in E as (text & E & _).
      apply companyOf_capture in E as [Hne Hd].
      rewrite (truthy_nonempty id Hne). exists id. auto.
    + simpl. exists "4623". repeat split. discriminate.
  - intros t. destruct (first_some (map csrfOf scripts)) as [t'|] eqn:E.
    + apply first_some_in, in_map_iff in E as (text & E & _).
      apply csrfOf_capture in E as [Hne Hd].
      rewrite (truthy_nonempty t' Hne). intros H; inversion H; subst. auto.
    + simpl. discriminate.
Qed.

Lemma bundle_values_well_formed_witness :
  "tok-1" <> "" /\ all_chars not_quote "tok-1" = true.
Proof.
  destruct (bundle_values_well_formed [] Sample.page_scripts "alice"
              "2024-05-01T10:00:00.000Z") as (_ & _ & H).
  apply H. reflexivity.
Defined.

(** *** A page script with both keys *)

Lemma pageScript_config (id t : string) :
  pageScript id t
  = "aDom.construct" ++ "" ++ "(" ++ "" ++ "{" ++ pageConfig id t ++ "}"
    ++ "" ++ ")" ++ ";".
Proof.
  unfold pageScript, pageConfig. rewrite !string_app_assoc. reflexivity.
Qed.

Lemma pageScript_adomMatch (id t : string) :
  all_chars is_digit id = true ->
  all_chars not_rbrace t = true ->
  adomMatch (pageScript id t) = Some (pageConfig id t).
Proof.
  intros Hid Ht. rewrite pageScript_config, adomMatch_greedy.
  apply search_here. apply adom_at_reads; try reflexivity.
  - unfold pageConfig. simpl. discriminate.
  - unfold pageConfig. rewrite !all_chars_app.
    rewrite (all_chars_weaken is_digit not_rbrace id digit_not_rbrace Hid), Ht.
    reflexivity.
Qed.

Lemma csrf_key_not_at_digit (c : ascii) (s : string) :
  is_digit c = true -> key_value_at "csrfToken" not_quote (String c s) = None.
Proof.
  intros H. unfold key_value_at, bind. cbn [opt].
  rewrite (digit_not_quote c H). cbn [lit].
  destruct (Ascii.eqb_spec "c"%char c) as [<-|]; [discriminate H | reflexivity].
Qed.

Lemma csrf_key_not_at_quoted_digit (q c : ascii) (s : string) :
  is_digit c = true ->
  key_value_at "csrfToken" not_quote (String q (String c s)) = None.
Proof.
  intros H. unfold key_value_at, bind. cbn [opt].
  destruct (is_quote q); cbn [lit].
  - destruct (Ascii.eqb_spec "c"%char c) as [<-|]; [discriminate H | reflexivity].
  - destruct (Ascii.eqb "c"%char q); [|reflexivity].
    destruct (Ascii.eqb_spec "s"%char c) as [<-|]; [discriminate H | reflexivity].
Qed.

(** The token is found after the company id: no earlier position of the
    argument text matches the [csrfToken] pattern. *)
Lemma pageConfig_csrfMatch (id t : string) :
  id <> "" -> all_chars is_digit id = true ->
  t <> "" -> all_chars not_quote t = true ->
  csrfMatch (pageConfig id t) = Some t.
Proof.
  intros Hidne Hid Hne Ht. rewrite csrfMatch_greedy. unfold pageConfig.
  cbn [append].
  do 19 (rewrite search_skip by reflexivity).
  rewrite search_skip.
  2:{ destruct id as [|d id']; [contradiction|]. simpl in Hid.
      apply andb_prop in Hid as [Hd _].
      apply csrf_key_not_at_quoted_digit; exact Hd. }
  rewrite (search_skip_run _ is_digit id)
    by (exact csrf_key_not_at_digit || exact Hid).
  cbn [append].
  do 3 (rewrite search_skip by reflexivity).
  apply search_here.
  apply (key_value_at_reads "c" "srfToken" not_quote "" "" "" " " "'" "'" t " ");
    try reflexivity; try assumption; try (left; reflexivity).
  exact not_quote_no_quote.
Qed.

Lemma pageConfig_companyMatch (id t : string) :
  id <> "" -> all_chars is_digit id = true ->
  companyMatch (pageConfig id t) = Some id.
Proof.
  intros Hne Hid. rewrite companyMatch_greedy. unfold pageConfig.
  cbn [append].
  rewrite search_skip by reflexivity.
  apply search_here.
  apply (key_value_at_reads "c" "urrentCompanyId" is_digit "" "" "" " " "'" "'" id);
    try reflexivity; try assumption; try (left; reflexivity).
  exact digit_not_quote.
Qed.

(** X6. From the page to the bundle: when the first script with the
    signature is [aDom.construct({ currentCompanyId: 'id', csrfToken: 't' });]
    with [id] a non-empty string of digits and [t] a non-empty token with
    no quote and no closing brace, the extraction yields exactly [t] and
    [id], whatever the scripts after it, and the bundle carries them in
    [X-CSRF-Token], [X-COMPANY-ID] and [session_info.company_id]. *)
Theorem page_values_reach_the_bundle
    (id t : string) (before after : list string)
    (jar : list Cookie) (USER now : string) :
  id <> "" -> all_chars is_digit id = true ->
  t <> "" -> all_chars not_quote t = true -> all_chars not_rbrace t = true ->
  (forall text, In text before -> matchesSignature text = false) ->
  let scripts := (before ++ pageScript id t :: after)%list in
  Scraper.extractAuthData scripts = {| csrf := Some t; companyId := Some id |}
  /\ let b := Scraper.buildAuthVariables jar (Scraper.extractAuthData scripts) USER now in
     X_CSRF_Token (headers b) = Some t
     /\ X_COMPANY_ID (headers b) = Some id
     /\ company_id (session_info b) = Some id.
Proof.
  intros Hidne Hid Htne Htq Htb Hbefore scripts.
  assert (E : Scraper.extractAuthData scripts
              = {| csrf := Some t; companyId := Some id |}).
  { unfold scripts. rewrite extract_fields, !map_app, !first_some_app.
    pose proof (extract_unrelated before Hbefore) as Eb.
    rewrite extract_fields in Eb. injection Eb as Eb1 Eb2.
    rewrite Eb1, Eb2. simpl. unfold csrfOf, companyOf.
    rewrite (pageScript_adomMatch id t Hid Htb). simpl.
    rewrite (pageConfig_csrfMatch id t Hidne Hid Htne Htq),
            (pageConfig_companyMatch id t Hidne Hid). reflexivity. }
  split; [exact E|]. rewrite E. simpl. unfold Js.or_else.
  rewrite (truthy_nonempty t Htne), (truthy_nonempty id Hidne). repeat split.
Qed.

Lemma page_values_reach_the_bundle_witness :
  Scraper.extractAuthData
    ["window.dataLayer = [];"; pageScript "77" "tok-9"; pageScript "12" "other"]
  = {| csrf := Some "tok-9"; companyId := Some "77" |}.
Proof.
  apply (page_values_reach_the_bundle "77" "tok-9" ["window.dataLayer = [];"]
           [pageScript "12" "other"] [] "alice" "2024-05-01T10:00:00.000Z");
    try reflexivity; try discriminate.
  intros text [<- | []]. reflexivity.
Defined.

End MoreScan.

(* ===================================================================== *)
(** ** More on the harvest: when it returns, and what it calls *)
(* ===================================================================== *)

Section MoreHarvest.

(** What a returned [verifyAndHarvest] went through. *)
Lemma verifyAndHarvest_returned_inv (USER : string) (w : World)
    (h trace : list Event) (b : AuthBundle) :
  Scraper.verifyAndHarvest USER w h = (trace, Returned b) ->
  exists h' jar scripts,
    Scraper.verifyLogin w h = (h', Returned true)
    /\ cookie_jar w h' = Returned jar
    /\ script_texts w (h' ++ [context_cookies]) = Returned scripts
    /\ settles w (h' ++ [context_cookies; page_evaluate]) browser_close = None
    /\ trace = (h' ++ harvestCalls)%list
    /\ b = Scraper.buildAuthVariables jar (Scraper.extractAuthData scripts) USER
             (clock w (h' ++ [context_cookies; page_evaluate; browser_close])).
Proof.
  unfold Scraper.verifyAndHarvest. intros H.
  apply bind_returned_inv in H as (loggedIn & h' & Hv & H).
  destruct loggedIn; [|discriminate]. simpl in H.
  apply bind_returned_inv in H as (jar & h1 & Hj & H).
  apply bind_returned_inv in H as (authData & h2 & He & H).
  apply bind_returned_inv in H as ([] & h3 & Hc & H).
  apply bind_returned_inv in H as (now & h4 & Hn & H).
  unfold get_cookies in Hj. inversion Hj; subst h1. clear Hj.
  unfold evaluate in He.
  destruct (script_texts w (h' ++ [context_cookies])) as [scripts|] eqn:Es;
    inversion He; subst h2 authData. clear He.
  unfold call in Hc.
  destruct (settles w ((h' ++ [context_cookies]) ++ [page_evaluate]) browser_close)
    eqn:Ec; inversion Hc; subst h3. clear Hc.
  unfold get_now in Hn. inversion Hn; subst h4 now. clear Hn.
  unfold ret in H. inversion H; subst.
  rewrite <- !app_assoc in *. simpl in *.
  exists h', jar, scripts. repeat split; try assumption; try reflexivity.
Qed.

Lemma verifyAndHarvest_returns (USER : string) (w : World)
    (h h' : list Event) (jar : list Cookie) (scripts : list string) :
  Scraper.verifyLogin w h = (h', Returned true) ->
  cookie_jar w h' = Returned jar ->
  script_texts w (h' ++ [context_cookies]) = Returned scripts ->
  settles w (h' ++ [context_cookies; page_evaluate]) browser_close = None ->
  Scraper.verifyAndHarvest USER w h
  = ((h' ++ harvestCalls)%list,
     Returned (Scraper.buildAuthVariables jar (Scraper.extractAuthData scripts) USER
                 (clock w (h' ++ [context_cookies; page_evaluate; browser_close])))).
Proof.
  intros Hv Hj Hs Hc. unfold Scraper.verifyAndHarvest.
  rewrite (bind_returned _ _ _ _ _ _ Hv). simpl.
  unfold bind, get_cookies, evaluate, call, get_now, ret.
  rewrite Hj, Hs.
  replace ((h' ++ [context_cookies]) ++ [page_evaluate])%list
    with (h' ++ [context_cookies; page_evaluate])%list
    by (rewrite <- app_assoc; reflexivity).
  rewrite Hc. unfold harvestCalls.
  repeat (rewrite <- app_assoc; simpl). reflexivity.
Qed.

(** A run that returns got through the login form and returned from
    [verifyAndHarvest]. *)
Lemma run_returned_inv (env : Env) (w : World) (trace : list Event) (b : AuthBundle) :
  run (Scraper.getCheckoutChampAuth env) w = (trace, Returned b) ->
  exists h, submitted env w h
            /\ Scraper.verifyAndHarvest (Scraper.text (CHECKOUTCHAMP_USER env)) w h
               = (trace, Returned b).
Proof.
  unfold run, Scraper.getCheckoutChampAuth.
  destruct (Js.truthy (CHECKOUTCHAMP_USER env)) eqn:Hu; [|discriminate].
  destruct (Js.truthy (CHECKOUTCHAMP_PASS env)) eqn:Hp; [|discriminate].
  simpl. intros H.
  apply bind_returned_inv in H as ([] & h0 & Ha & H).
  unfold try_catch in H.
  destruct (Scraper.tryBlock _ _ w h0) as [h1 [b'|e]] eqn:Ht.
  - inversion H; subst. unfold Scraper.tryBlock in Ht.
    apply bind_returned_inv in Ht as ([] & h2 & Ho & Ht).
    apply bind_returned_inv in Ht as ([] & h3 & Hs & Ht).
    exists h3. split; [|exact Ht].
    split; [split; assumption|]. exists h0, h2. auto.
  - destruct (catchBlock_throws e w h1) as (m & Hc).
    rewrite Hc in H. discriminate.
Qed.

(** [verifyLogin] only adds events. *)
Lemma verifyLogin_extends (w : World) (h : list Event) :
  exists evs, fst (Scraper.verifyLogin w h) = (h ++ evs)%list.
Proof.
  unfold Scraper.verifyLogin, Scraper.dashboardReached, bind, get_url, query,
    ret, catch_null, try_catch, call.
  repeat (simpl; first [branch | solve [rewrite <- ?app_assoc; eauto]]).
Qed.

(** X7. When the harvest returns a bundle, and which one.  It returns a
    bundle exactly when the login is confirmed, [context.cookies()] and
    [page.evaluate] resolve and [browser.close()] resolves; the calls
    after the verification are then these three and the reading of the
    clock, and the bundle is the one built from the cookie jar, from the
    values extracted from the scripts, from the configured user name and
    from the clock.  What the jar and the scripts contain plays no part in
    whether a bundle is returned: missing cookies or values are no
    error. *)
Theorem harvest_returns_iff
    (env : Env) (w : World) (trace : list Event) (b : AuthBundle) :
  run (Scraper.getCheckoutChampAuth env) w = (trace, Returned b)
  <-> exists h' jar scripts,
        harvested env w h' jar scripts
        /\ trace = (h' ++ harvestCalls)%list
        /\ b = Scraper.buildAuthVariables jar (Scraper.extractAuthData scripts)
                 (Scraper.text (CHECKOUTCHAMP_USER env))
                 (clock w (h' ++ [context_cookies; page_evaluate; browser_close])).
Proof.
  split.
  - intros H. apply run_returned_inv in H as (h & Hsub & H).
    apply verifyAndHarvest_returned_inv in H
      as (h' & jar & scripts & Hv & Hj & Hs & Hc & Ht & Hb).
    exists h', jar, scripts. split; [|split; assumption].
    split; [exists h; split; assumption|]. auto.
  - intros (h' & jar & scripts & ((h & Hsub & Hv) & Hj & Hs & Hc) & -> & ->).
    rewrite (run_after_submit env w h Hsub). unfold try_catch.
    rewrite (verifyAndHarvest_returns _ w h h' jar scripts Hv Hj Hs Hc).
    reflexivity.
Qed.

(** A page with no script and no cookie at all still gives a bundle. *)
Lemma harvest_returns_iff_witness :
  let bare :=
    {| settles := fun _ _ => None;
       current_url := fun _ => "https://crm.checkoutchamp.com/dashboard/";
       query_found := fun _ _ => Returned false;
       cookie_jar := fun _ => Returned [];
       script_texts := fun _ => Returned [];
       clock := fun _ => "2024-05-01T10:00:00.000Z" |} in
  run (Scraper.getCheckoutChampAuth Sample.env) bare
  = ((submittedTrace "alice" "hunter2" ++ page_url :: harvestCalls)%list,
     Returned (Scraper.buildAuthVariables [] (Scraper.extractAuthData [])
                 "alice" "2024-05-01T10:00:00.000Z")).
Proof.
  intros bare.
  apply (proj2 (harvest_returns_iff Sample.env bare _ _)).
  exists (submittedTrace "alice" "hunter2" ++ [page_url])%list, [], [].
  split; [|split; reflexivity].
  split; [|repeat split].
  exists (submittedTrace "alice" "hunter2"). split; [|reflexivity].
  split; [split; reflexivity|].
  exists acquiredTrace, (acquiredTrace ++ [loginGoto])%list. repeat split.
Defined.

(** X8. In every run: once [browser.close()] has been called nothing more
    is asked of the browser, its context or its page (only a second
    [browser.close()] and the reading of the clock can follow); at most
    one browser is launched; and the first call, if any, is the launch
    with the headless flag and the two sandbox arguments. *)
Theorem browser_untouched_after_close (env : Env) (w : World) :
  let trace := fst (run (Scraper.getCheckoutChampAuth env) w) in
  quiet_after_close trace = true
  /\ (count is_launch trace <= 1)%nat
  /\ (trace = [] \/ exists rest,
        trace = chromium_launch true ["--no-sandbox"; "--disable-setuid-sandbox"]
                :: rest).
Proof.
  intros trace. subst trace. unfold run, count. unfold_scraper.
  destruct (negb _ || negb _); [simpl; auto|].
  simpl.
  repeat (simpl; first [branch | solve [repeat split; eauto]]).
Qed.

(** X9. What a run types into the page.  The [page.fill] calls of a run
    are, in this order, the configured user name typed into the field
    named [userName] and then the configured password typed into the
    field named [password]; a run that stops early makes only the first,
    or none.  Every other call a run makes is one of the fixed calls of
    the program, whose arguments are constants that do not depend on the
    configured credentials. *)
Theorem credentials_typed_only_in_the_login_form (env : Env) (w : World) :
  let trace := fst (run (Scraper.getCheckoutChampAuth env) w) in
  (exists n, filter is_fill trace
             = firstn n (credentialFills (Scraper.text (CHECKOUTCHAMP_USER env))
                                         (Scraper.text (CHECKOUTCHAMP_PASS env))))
  /\ Forall (fun e => is_fill e = false -> In e fixedCalls) trace.
Proof.
  intros trace. subst trace. unfold run. unfold_scraper.
  destruct (negb _ || negb _); [simpl; split; [exists 0%nat; reflexivity | constructor]|].
  simpl.
  repeat (simpl;
          first [ branch
                | solve [ split;
                          [ first [ exists 0%nat; reflexivity
                                  | exists 1%nat; reflexivity
                                  | exists 2%nat; reflexivity ]
                          | repeat (apply Forall_cons;
                                    [ first [ intros H; discriminate H
                                            | intros _; unfold fixedCalls; simpl;
                                              repeat first [ left; reflexivity | right ] ]
                                    | ]);
                            apply Forall_nil ] ] ]).
Qed.

(** X10. On a run that returns a bundle no error was swallowed: every call
    the run made succeeded, except possibly the wait for the navigation
    after the click and the fallback navigation to the dashboard, the two
    calls whose rejection the code catches. *)
Theorem no_error_is_swallowed
    (env : Env) (w : World) (trace : list Event) (b : AuthBundle) :
  run (Scraper.getCheckoutChampAuth env) w = (trace, Returned b) ->
  resolvedFrom w [] trace.
Proof.
  unfold run. unfold_scraper.
  destruct (negb _ || negb _); [discriminate|].
  simpl.
  repeat (simpl;
          first [ branch
                | intros E; inversion E; subst; simpl;
                  solve [repeat (split;
                                 [first [left; reflexivity | right; simpl; eauto]|]);
                         exact I]
                | discriminate ]).
Qed.

Lemma no_error_is_swallowed_witness :
  resolvedFrom Sample.slow_redirect []
    (fst (run (Scraper.getCheckoutChampAuth Sample.env) Sample.slow_redirect)).
Proof.
  eapply (no_error_is_swallowed Sample.env Sample.slow_redirect).
  reflexivity.
Defined.

(** X11. The bundle describes the session that was driven: on a run that
    returns a bundle, the [User-Agent] header of the bundle is the user
    agent the browser context was created with, [login_url] is the URL
    that was loaded, [username] is what was typed into the user field,
    [all_cookies] is a jar the browser returned, and the three named
    cookie fields are the lookups in that same jar. *)
Theorem bundle_describes_the_session
    (env : Env) (w : World) (trace : list Event) (b : AuthBundle) :
  run (Scraper.getCheckoutChampAuth env) w = (trace, Returned b) ->
  In (browser_newContext (User_Agent (headers b))) trace
  /\ In (page_goto (login_url (endpoints b)) "domcontentloaded" 30000) trace
  /\ In (page_fill Scraper.USER_FIELD (username (session_info b)) 5000) trace
  /\ (exists h, cookie_jar w h = Returned (all_cookies (cookies b)))
  /\ crmid (cookies b) = Scraper.cookieValue "crmid" (all_cookies (cookies b))
  /\ k_region (cookies b) = Scraper.cookieValue "k_region" (all_cookies (cookies b))
  /\ __cf_bm (cookies b) = Scraper.cookieValue "__cf_bm" (all_cookies (cookies b)).
Proof.
  intros H. apply run_returned_inv in H as (h & Hsub & H).
  pose proof (submitted_trace env w h Hsub) as ->.
  apply verifyAndHarvest_returned_inv in H
    as (h' & jar & scripts & Hv & Hj & Hs & Hc & -> & ->).
  destruct (verifyLogin_extends w
              (submittedTrace (Scraper.text (CHECKOUTCHAMP_USER env))
                 (Scraper.text (CHECKOUTCHAMP_PASS env)))) as [evs Hpre].
  rewrite Hv in Hpre. simpl in Hpre. subst h'.
  simpl.
  repeat split; try (exists (submittedTrace (Scraper.text (CHECKOUTCHAMP_USER env))
                     (Scraper.text (CHECKOUTCHAMP_PASS env)) ++ evs)%list; exact Hj).
  - right; left; reflexivity.
  - do 3 right; left; reflexivity.
  - do 4 right; left; reflexivity.
Qed.

Lemma bundle_describes_the_session_witness :
  In (browser_newContext Scraper.USER_AGENT)
     (fst (run (Scraper.getCheckoutChampAuth Sample.env) Sample.logged_in)).
Proof.
  destruct (run (Scraper.getCheckoutChampAuth Sample.env) Sample.logged_in)
    as [trace [b|m]] eqn:R; [|discriminate R].
  destruct (bundle_describes_the_session Sample.env Sample.logged_in trace b R)
    as (H & _).
  inversion R; subst. exact H.
Defined.

(** *** The URL test of the verification *)

Lemma prefix_app (p s : string) : prefix p (p ++ s) = true.
Proof.
  induction p as [|c p IH]; simpl.
  - destruct s; reflexivity.
  - destruct (ascii_dec c c); [exact IH | contradiction].
Qed.

Lemma prefix_inv (p s : string) :
  prefix p s = true -> exists b, s = p ++ b.
Proof.
  revert s. induction p as [|c p IH]; intros s H.
  - exists s. reflexivity.
  - destruct s as [|d s]; simpl in H; [discriminate|].
    destruct (ascii_dec c d) as [->|]; [|discriminate].
    destruct (IH s H) as [b ->]. exists b. reflexivity.
Qed.

(** [includes] is the substring test. *)
Lemma includes_spec (s part : string) :
  Js.includes s part = true <-> exists a b, s = a ++ part ++ b.
Proof.
  split.
  - induction s as [|c s IH]; cbn [Js.includes].
    + destruct part; intros H; [|discriminate H]. exists "", "". reflexivity.
    + destruct (prefix part (String c s)) eqn:E.
      * intros _. apply prefix_inv in E as [b E]. exists "", b. exact E.
      * intros H. destruct (IH H) as (a & b & ->). exists (String c a), b.
        reflexivity.
  - intros (a & b & ->). induction a as [|c a IH].
    + change ("" ++ part ++ b) with (part ++ b).
      destruct (part ++ b) eqn:E; cbn [Js.includes];
        rewrite <- E, prefix_app; reflexivity.
    + change (String c a ++ part ++ b) with (String c (a ++ part ++ b)).
      cbn [Js.includes].
      destruct (prefix part (String c (a ++ part ++ b))); [reflexivity | exact IH].
Qed.

(** X12. The URL signal is a substring test: the verification is confirmed
    by the URL alone, with [page.url()] as its only call (no look at the
    page, no fallback), exactly when [/dashboard] occurs somewhere in the
    current URL, be it in the path, in the query string or in the
    fragment. *)
Theorem dashboard_anywhere_in_url_confirms (w : World) (h : list Event) :
  (exists a b, current_url w h = a ++ "/dashboard" ++ b)
  <-> Scraper.verifyLogin w h = ((h ++ [page_url])%list, Returned true).
Proof.
  rewrite <- (includes_spec (current_url w h) "/dashboard").
  unfold Scraper.verifyLogin, Scraper.dashboardReached, bind, get_url, query,
    ret, catch_null, try_catch, call.
  change Scraper.DASHBOARD_URL_PART with "/dashboard".
  destruct (Js.includes (current_url w h) "/dashboard").
  - simpl. split; reflexivity.
  - split; [discriminate|]. intros H. exfalso.
    assert (L : forall (p : list Event * result bool),
              p = ((h ++ [page_url])%list, Returned true) ->
              length (fst p) = S (length h)).
    { intros p ->. simpl. rewrite length_app. simpl. lia. }
    apply L in H. revert H.
    destruct (query_found w (h ++ [page_url]) Scraper.REPORTS_SELECTOR) as [[|]|];
      simpl; repeat rewrite length_app; simpl; try lia.
    destruct (settles w _ _); simpl;
      destruct (Js.includes _ _); simpl; repeat rewrite length_app; simpl; lia.
Qed.

(** The browser is still on the login page, whose query string names the
    dashboard. *)
Lemma dashboard_anywhere_in_url_confirms_witness :
  Scraper.verifyLogin (Sample.steady sample_login_url_with_next false)
    (submittedTrace "alice" "hunter2")
  = ((submittedTrace "alice" "hunter2" ++ [page_url])%list, Returned true).
Proof.
  apply (proj1 (dashboard_anywhere_in_url_confirms
                  (Sample.steady sample_login_url_with_next false)
                  (submittedTrace "alice" "hunter2"))).
  exists "https://crm.checkoutchamp.com/?next=", "". reflexivity.
Defined.

End MoreHarvest.

(* ===================================================================== *)
(** ** More on the endpoint and on the named cookies *)
(* ===================================================================== *)

Section MoreEndpoint.

(** A request the body parser lets through is authorized, or it is
    answered 401 or 403 with no call made. *)
Lemma authorized_or_rejected (env : Env) (req : Server.Request) (w : World) :
  Server.req_json req = Server.Passed ->
  authorized env req
  \/ (exists res, Server.serve env req w = ([], Some res)
                  /\ (Server.status res = 401 \/ Server.status res = 403)%Z).
Proof.
  intros Hj.
  destruct (Server.req_headers req "x-api-token") as [t|] eqn:Et.
  - destruct (String.eqb_spec t "") as [->|Hne].
    + right. eexists. split; [apply (serve_unauthorized env req w Hj); right; exact Et|].
      left; reflexivity.
    + destruct (API_TOKEN env) as [t'|] eqn:Ea.
      * destruct (String.eqb_spec t t') as [->|Hd].
        -- left. exists t'. auto.
        -- right. eexists. split;
             [apply (serve_forbidden env req w t Hj Et Hne); rewrite Ea; congruence|].
           right; reflexivity.
      * right. eexists. split;
          [apply (serve_forbidden env req w t Hj Et Hne); rewrite Ea; discriminate|].
        right; reflexivity.
  - right. eexists. split; [apply (serve_unauthorized env req w Hj); left; exact Et|].
    left; reflexivity.
Qed.

(** X13. The answers of [POST /api/auth], with every awaited call of the
    browser resolving or rejecting: no error escapes the route, which
    ends by sending a response.  A request whose body the JSON body
    parser of line 11 rejects gets the error page with the status of the
    parser's error, and no call is made for it.  A request the parser
    lets through gets status 200, 401, 403 or 500.  The status is 200 or
    an error status (400 to 599).  A 200 is only sent to a request that
    the parser lets through and that carries the configured, non-empty
    token, and its body is the bundle the harvest returned; and the
    browser is only ever driven (some call is made) for such a
    request. *)
Theorem responses_of_the_auth_route
    (env : Env) (req : Server.Request) (w : World) :
  exists trace res,
    Server.serve env req w = (trace, Some res)
    /\ (forall s, Server.req_json req = Server.Rejected s ->
          trace = []
          /\ res = {| Server.status := Server.errorStatus s;
                      Server.body := Server.ErrorPage |})
    /\ (Server.req_json req = Server.Passed ->
          (Server.status res = 200 \/ Server.status res = 401
           \/ Server.status res = 403 \/ Server.status res = 500)%Z)
    /\ (Server.status res = 200 \/ 400 <= Server.status res < 600)%Z
    /\ (Server.status res = 200%Z ->
          admitted env req
          /\ exists bundle,
               Server.body res = Server.BundleBody bundle
               /\ run (Scraper.getCheckoutChampAuth env) w = (trace, Returned bundle))
    /\ (trace <> [] -> admitted env req).
Proof.
  destruct (Server.req_json req) as [|s] eqn:Ej.
  - destruct (authorized_or_rejected env req w Ej) as [Hauth | (res & E & Hs)].
    + pose proof Hauth as (t & Et & Hne & Ea).
      pose proof (serve_authorized env req w t Ej Et Hne (eq_sym Ea)) as E.
      destruct (run (Scraper.getCheckoutChampAuth env) w) as [trace [b|m]] eqn:R.
      * exists trace. eexists. split; [exact E|]. simpl.
        split; [discriminate|]. split; [auto|]. split; [auto|].
        split; [|intros _; split; [exact Ej | exact Hauth]].
        intros _. split; [split; [exact Ej | exact Hauth]|]. exists b. auto.
      * exists trace. eexists. split; [exact E|]. simpl.
        split; [discriminate|]. split; [auto|]. split; [right; lia|].
        split; [discriminate | intros _; split; [exact Ej | exact Hauth]].
    + exists [], res. split; [exact E|].
      split; [discriminate|].
      split; [intros _; destruct Hs as [-> | ->]; auto|].
      split; [right; destruct Hs as [-> | ->]; lia|].
      split; [destruct Hs as [-> | ->]; discriminate | congruence].
  - exists []. eexists. split; [apply (serve_rejected env req w s Ej)|]. simpl.
    pose proof (errorStatus_range s) as Hr.
    split; [intros s' Hs'; inversion Hs'; subst; split; reflexivity|].
    split; [discriminate|].
    split; [right; exact Hr|].
    split; [intros H200; rewrite H200 in Hr; lia | congruence].
Qed.

(** A request that drove the browser had passed the body parser and was
    authorized. *)
Lemma responses_of_the_auth_route_witness :
  admitted Sample.env (Sample.request (Some "secret")).
Proof.
  destruct (responses_of_the_auth_route Sample.env
              (Sample.request (Some "secret")) Sample.refused)
    as (trace & res & E & _ & _ & _ & _ & H).
  apply H. intros ->. discriminate E.
Defined.

(** X14. An authorized request to a server without credentials: when the
    body parser of line 11 lets the request through and the user name or
    the password is not configured (or is empty), the answer is 500 with
    the missing-credentials message, and no browser is launched. *)
Theorem authorized_request_without_credentials
    (env : Env) (req : Server.Request) (w : World) :
  admitted env req ->
  absent (CHECKOUTCHAMP_USER env) \/ absent (CHECKOUTCHAMP_PASS env) ->
  Server.serve env req w
  = ([], Some {| Server.status := 500;
                 Server.body :=
                   Server.ErrorBody "Internal Server Error"
                     "Missing CHECKOUTCHAMP_USER or CHECKOUTCHAMP_PASS environment variables" |}).
Proof.
  intros (Hj & t & Et & Hne & Ea) H.
  rewrite (serve_authorized env req w t Hj Et Hne (eq_sym Ea)).
  unfold run, Scraper.getCheckoutChampAuth.
  assert (G : negb (Js.truthy (CHECKOUTCHAMP_USER env))
              || negb (Js.truthy (CHECKOUTCHAMP_PASS env)) = true).
  { destruct H as [H | H]; apply truthy_spec in H; rewrite H; simpl;
      rewrite ?orb_true_r; reflexivity. }
  rewrite G. reflexivity.
Qed.

Lemma authorized_request_without_credentials_witness :
  Server.serve Sample.env_no_pass (Sample.request (Some "secret")) Sample.logged_in
  = ([], Some {| Server.status := 500;
                 Server.body :=
                   Server.ErrorBody "Internal Server Error"
                     "Missing CHECKOUTCHAMP_USER or CHECKOUTCHAMP_PASS environment variables" |}).
Proof.
  apply authorized_request_without_credentials.
  - split; [reflexivity|]. exists "secret". repeat split. discriminate.
  - right; left; reflexivity.
Defined.

(** *** The named cookies *)

Lemma cookieValue_named (n : string) (jar : list Cookie) :
  Scraper.cookieValue n jar
  = match named n jar with
    | [] => None
    | c :: _ => if value c =? "" then None else Some (value c)
    end.
Proof.
  unfold Scraper.cookieValue, Js.find, named, Js.or_else.
  induction jar as [|c jar IH]; simpl; [reflexivity|].
  destruct (name c =? n); simpl; [|exact IH].
  destruct (value c =? ""); reflexivity.
Qed.

Lemma named_none (n : string) (jar : list Cookie) :
  (forall c, In c jar -> name c <> n) -> named n jar = [].
Proof.
  intros H. unfold named. induction jar as [|c jar IH]; simpl; [reflexivity|].
  destruct (String.eqb_spec (name c) n) as [E|_].
  - exfalso. apply (H c); [left; reflexivity | exact E].
  - apply IH. intros c' Hc'. apply H. right; exact Hc'.
Qed.

(** X15. The lookup of a named cookie: [null] when the jar has no cookie of
    that name; a value it gives is never empty and is the value of a
    cookie of that name in the jar; and the first cookie of that name in
    jar order decides alone: if its value is empty the result is [null],
    even when a later cookie of the same name has a value. *)
Theorem named_cookie_lookup (n : string) (jar : list Cookie) :
  ((forall c, In c jar -> name c <> n) -> Scraper.cookieValue n jar = None)
  /\ (forall v, Scraper.cookieValue n jar = Some v ->
        v <> "" /\ exists c, In c jar /\ name c = n /\ value c = v)
  /\ (forall before c after,
        jar = (before ++ c :: after)%list ->
        (forall c', In c' before -> name c' <> n) -> name c = n ->
        Scraper.cookieValue n jar
        = if value c =? "" then None else Some (value c)).
Proof.
  split; [|split].
  - intros H. rewrite cookieValue_named, (named_none n jar H). reflexivity.
  - intros v. rewrite cookieValue_named.
    destruct (named n jar) as [|c l] eqn:E; [discriminate|].
    assert (Hin : In c (named n jar)) by (rewrite E; left; reflexivity).
    apply filter_In in Hin as [Hin Hn]. apply String.eqb_eq in Hn.
    destruct (String.eqb_spec (value c) "") as [|Hne]; [discriminate|].
    intros H; inversion H; subst. split; [exact Hne|]. exists c. auto.
  - intros before c after -> Hb Hc. rewrite cookieValue_named.
    unfold named. rewrite filter_app. fold (named n before).
    rewrite (named_none n before Hb). simpl.
    rewrite (proj2 (String.eqb_eq (name c) n) Hc). reflexivity.
Qed.

(** A stale, empty [crmid] ahead of the live one hides it. *)
Lemma named_cookie_lookup_witness :
  Scraper.cookieValue "crmid" [sample_stale_cookie; Sample.session_cookie] = None
  /\ Scraper.cookieValue "k_region" [sample_stale_cookie; Sample.session_cookie]
     = None.
Proof.
  destruct (named_cookie_lookup "crmid"
              [sample_stale_cookie; Sample.session_cookie]) as (_ & _ & Hfirst).
  destruct (named_cookie_lookup "k_region"
              [sample_stale_cookie; Sample.session_cookie]) as (Hnone & _).
  split.
  - apply (Hfirst [] sample_stale_cookie [Sample.session_cookie] eq_refl).
    + intros c' [].
    + reflexivity.
  - apply Hnone. intros c [<- | [<- | []]]; discriminate.
Defined.

End MoreEndpoint.
